(** * SGCRM: webhook receiver that syncs contacts into HubSpot

    A shallow embedding of [integratiom.js]: the signature gate
    ([verifyWebhookSignature]), the resolver ([getOrCreateHubSpotContact]),
    the update call ([updateHubSpotContact]) and the two webhook handlers
    ([POST /webhook/salesgodscrm] and [POST /webhook/smartlead]), followed by
    the properties of the reconciliation logic.

    JavaScript strings are carried as Rocq [string]s holding their UTF-8
    bytes; that is the encoding [Hmac.update] hashes, and splitting on a
    space or escaping for JSON acts on ASCII bytes only. *)

From Stdlib Require Import ZArith List String Ascii Bool Lia DecimalString.
Import ListNotations.

Set Warnings "-register-all".

(* ================================================================== *)
(** ** SHA-256 and HMAC ([crypto.createHmac('sha256', key)])           *)
(* ================================================================== *)

Module SHA256.
Local Open Scope Z_scope.

(** 32-bit words are integers in [0, 2^32); every addition wraps. *)
Definition wrap32 (x : Z) : Z := x mod 2 ^ 32.
Definition add32 (x y : Z) : Z := wrap32 (x + y).
Definition rotr (n x : Z) : Z :=
  Z.lor (Z.shiftr x n) (wrap32 (Z.shiftl x (32 - n))).
Definition not32 (x : Z) : Z := Z.lxor x (2 ^ 32 - 1).

Definition Ch (x y z : Z) : Z := Z.lxor (Z.land x y) (Z.land (not32 x) z).
Definition Maj (x y z : Z) : Z :=
  Z.lxor (Z.lxor (Z.land x y) (Z.land x z)) (Z.land y z).
Definition Sigma0 (x : Z) : Z :=
  Z.lxor (Z.lxor (rotr 2 x) (rotr 13 x)) (rotr 22 x).
Definition Sigma1 (x : Z) : Z :=
  Z.lxor (Z.lxor (rotr 6 x) (rotr 11 x)) (rotr 25 x).
Definition sigma0 (x : Z) : Z :=
  Z.lxor (Z.lxor (rotr 7 x) (rotr 18 x)) (Z.shiftr x 3).
Definition sigma1 (x : Z) : Z :=
  Z.lxor (Z.lxor (rotr 17 x) (rotr 19 x)) (Z.shiftr x 10).

(** The primes up to 311: the first 64 of them. *)
Definition is_prime (n : Z) : bool :=
  forallb (fun d => negb (n mod Z.of_nat d =? 0)) (seq 2 (Z.to_nat n - 2)).

Definition primes : list Z :=
  Eval vm_compute in filter is_prime (map Z.of_nat (seq 2 310)).

(** Integer cube root, one bit at a time from bit [bits - 1] down. *)
Fixpoint root3 (bits : nat) (n r : Z) : Z :=
  match bits with
  | O => r
  | S b =>
      let r' := r + 2 ^ Z.of_nat b in
      root3 b n (if r' ^ 3 <=? n then r' else r)
  end.

(** The round constants: the first 32 bits of the fractional part of the
    cube root of each of the first 64 primes. *)
Definition K : list Z :=
  Eval vm_compute in
    map (fun p => wrap32 (root3 35 (p * 2 ^ 96) 0)) primes.

Record state : Type := State
  { h0 : Z; h1 : Z; h2 : Z; h3 : Z; h4 : Z; h5 : Z; h6 : Z; h7 : Z }.

(** The initial hash value: the first 32 bits of the fractional part of the
    square root of each of the first 8 primes. *)
Definition frac_sqrt (i : nat) : Z :=
  wrap32 (Z.sqrt (nth i primes 0 * 2 ^ 64)).

Definition initial : state :=
  Eval vm_compute in
    State (frac_sqrt 0) (frac_sqrt 1) (frac_sqrt 2) (frac_sqrt 3)
          (frac_sqrt 4) (frac_sqrt 5) (frac_sqrt 6) (frac_sqrt 7).

(** Big-endian packing of the first [4 * n] bytes into [n] words. *)
Fixpoint words_of_bytes (n : nat) (bs : list Z) : list Z :=
  match n, bs with
  | S n', b0 :: b1 :: b2 :: b3 :: rest =>
      (b0 * 2 ^ 24 + b1 * 2 ^ 16 + b2 * 2 ^ 8 + b3) :: words_of_bytes n' rest
  | _, _ => []
  end.

Definition bytes_of_word (w : Z) : list Z :=
  [ Z.shiftr w 24 mod 256; Z.shiftr w 16 mod 256; Z.shiftr w 8 mod 256;
    w mod 256 ].

(** The message schedule, grown one word at a time from the 16 block words. *)
Fixpoint extend (n : nat) (W : list Z) : list Z :=
  match n with
  | O => W
  | S n' =>
      let t := List.length W in
      let w i := nth (t - i) W 0 in
      extend n'
        (W ++ [add32 (add32 (add32 (sigma1 (w 2%nat)) (w 7%nat))
                            (sigma0 (w 15%nat))) (w 16%nat)])
  end.

Definition round (s : state) (kw : Z * Z) : state :=
  let '(k, w) := kw in
  let T1 := add32 (add32 (add32 (add32 (h7 s) (Sigma1 (h4 s)))
                                (Ch (h4 s) (h5 s) (h6 s))) k) w in
  let T2 := add32 (Sigma0 (h0 s)) (Maj (h0 s) (h1 s) (h2 s)) in
  State (add32 T1 T2) (h0 s) (h1 s) (h2 s)
        (add32 (h3 s) T1) (h4 s) (h5 s) (h6 s).

Definition compress (s : state) (block : list Z) : state :=
  let W := extend 48 (words_of_bytes 16 block) in
  let r := fold_left round (combine K W) s in
  State (add32 (h0 s) (h0 r)) (add32 (h1 s) (h1 r))
        (add32 (h2 s) (h2 r)) (add32 (h3 s) (h3 r))
        (add32 (h4 s) (h4 r)) (add32 (h5 s) (h5 r))
        (add32 (h6 s) (h6 r)) (add32 (h7 s) (h7 r)).

Definition pad (msg : list Z) : list Z :=
  let len := Z.of_nat (List.length msg) in
  let zeros := Z.to_nat ((55 - len) mod 64) in
  let bits := len * 8 in
  msg ++ [0x80] ++ repeat 0 zeros
      ++ bytes_of_word (Z.shiftr bits 32 mod 2 ^ 32)
      ++ bytes_of_word (bits mod 2 ^ 32).

Fixpoint absorb (n : nat) (s : state) (bs : list Z) : state :=
  match n with
  | O => s
  | S n' => absorb n' (compress s (firstn 64 bs)) (skipn 64 bs)
  end.

Definition digest_state (msg : list Z) : state :=
  let p := pad msg in absorb (List.length p / 64) initial p.

Definition digest (msg : list Z) : list Z :=
  let s := digest_state msg in
  flat_map bytes_of_word [h0 s; h1 s; h2 s; h3 s; h4 s; h5 s; h6 s; h7 s].

(** HMAC (RFC 2104) with a 64-byte block. *)
Definition hmac (key msg : list Z) : list Z :=
  let key' := if 64 <? Z.of_nat (List.length key) then digest key else key in
  let block := key' ++ repeat 0 (64 - List.length key') in
  digest (map (Z.lxor 0x5c) block ++ digest (map (Z.lxor 0x36) block ++ msg)).

End SHA256.

Module Hex.
Local Open Scope Z_scope.

Definition digit (n : Z) : ascii :=
  ascii_of_N (Z.to_N (if n <? 10 then 48 + n else 87 + n)).

Definition byte (b : Z) (tail : string) : string :=
  String (digit (b / 16 mod 16)) (String (digit (b mod 16)) tail).

(** [Buffer.toString('hex')]: two lower-case digits per byte. *)
Definition encode (bs : list Z) : string := fold_right byte EmptyString bs.

End Hex.

Definition bytes_of_string (s : string) : list Z :=
  map (fun c => Z.of_N (N_of_ascii c)) (list_ascii_of_string s).

(** [crypto.createHmac('sha256', key).update(payload).digest('hex')]. *)
Definition createHmac_sha256_hex (key payload : string) : string :=
  Hex.encode (SHA256.hmac (bytes_of_string key) (bytes_of_string payload)).

Open Scope string_scope.

(* ================================================================== *)
(** ** JavaScript values                                               *)
(* ================================================================== *)

(** JSON-shaped JavaScript values.  A number is carried as its
    [Number::toString] rendering (what [JSON.stringify] prints for it);
    the only other thing the program observes of a number is whether it is
    falsy, that is whether it renders as [0] (both zeros do) or [NaN].
    An object is the list of its own properties in enumeration order; reading
    a property takes the first entry with that key. *)
Inductive value : Type :=
| JUndefined
| JNull
| JBool (b : bool)
| JNum (repr : string)
| JStr (s : string)
| JArr (elems : list value)
| JObj (fields : list (string * value)).

Definition error : Type := string. (* [error.message] *)

Inductive result (A : Type) : Type :=
| Ok (a : A)
| Thrown (e : error).
Arguments Ok {A} a.
Arguments Thrown {A} e.

(** ToBoolean. *)
Definition truthy (v : value) : bool :=
  match v with
  | JUndefined | JNull => false
  | JBool b => b
  | JNum r => negb (String.eqb r "0" || String.eqb r "NaN")
  | JStr s => negb (String.eqb s "")
  | JArr _ | JObj _ => true
  end.

(** [a || b] and [a && b]. *)
Definition or_ (a b : value) : value := if truthy a then a else b.
Definition and_ (a b : value) : value := if truthy a then b else a.

Fixpoint lookup (k : string) (fs : list (string * value)) : option value :=
  match fs with
  | [] => None
  | (k', v) :: rest => if String.eqb k k' then Some v else lookup k rest
  end.

(** [o[k] = v] on an object: overwrite in place, or add the key last. *)
Fixpoint set (k : string) (v : value) (fs : list (string * value))
  : list (string * value) :=
  match fs with
  | [] => [(k, v)]
  | (k', v') :: rest =>
      if String.eqb k k' then (k, v) :: rest else (k', v') :: set k v rest
  end.

(** [Object.keys] of an object. *)
Definition keys (fs : list (string * value)) : list string := map fst fs.

(** Own-property read [v[k]] of a non-nullish value, for the property names
    this program reads (none of them is an index, [length], or a name found
    on a built-in prototype): the property of an object, [undefined] on
    anything else. *)
Definition prop (v : value) (k : string) : value :=
  match v with
  | JObj fs => match lookup k fs with Some x => x | None => JUndefined end
  | _ => JUndefined
  end.

Definition nullish (v : value) : bool :=
  match v with JUndefined | JNull => true | _ => false end.

(** [v.k]: throws a TypeError on [undefined] and [null]. *)
Definition get (v : value) (k : string) : result value :=
  if nullish v
  then Thrown ("Cannot read properties of undefined (reading '" ++ k ++ "')")
  else Ok (prop v k).

(** [v?.k]. *)
Definition get_opt (v : value) (k : string) : value :=
  if nullish v then JUndefined else prop v k.

(** [{ ...target, ...src }] onto the properties collected so far.  The
    operand of every spread in the program is [x && { k: x }]: either an
    object literal or a falsy primitive, which has no own enumerable
    property. *)
Definition spread (target : list (string * value)) (src : value)
  : list (string * value) :=
  match src with
  | JObj fs => fold_left (fun acc kv => set (fst kv) (snd kv) acc) fs target
  | _ => target
  end.

(** *** [JSON.stringify] *)

Definition dquote : ascii := "034"%char.
Definition backslash : ascii := "092"%char.

Definition escape_char (c : ascii) (tail : string) : string :=
  let n := nat_of_ascii c in
  if Ascii.eqb c dquote then String backslash (String dquote tail)
  else if Ascii.eqb c backslash then String backslash (String backslash tail)
  else if Nat.eqb n 8 then String backslash (String "b" tail)
  else if Nat.eqb n 9 then String backslash (String "t" tail)
  else if Nat.eqb n 10 then String backslash (String "n" tail)
  else if Nat.eqb n 12 then String backslash (String "f" tail)
  else if Nat.eqb n 13 then String backslash (String "r" tail)
  else if Nat.ltb n 32
       then String backslash (String "u" (String "0" (String "0"
              (Hex.byte (Z.of_nat n) tail))))
  else String c tail.

Fixpoint escape (s : string) : string :=
  match s with
  | EmptyString => EmptyString
  | String c rest => escape_char c (escape rest)
  end.

Definition quote (s : string) : string :=
  String dquote (escape s ++ String dquote EmptyString).

(** [None] stands for [undefined]: what [JSON.stringify(undefined)] returns,
    and why an [undefined] property is left out of an object and printed as
    [null] in an array. *)
Fixpoint JSON_stringify (v : value) : option string :=
  match v with
  | JUndefined => None
  | JNull => Some "null"
  | JBool true => Some "true"
  | JBool false => Some "false"
  | JNum r =>
      if String.eqb r "NaN" || String.eqb r "Infinity"
         || String.eqb r "-Infinity"
      then Some "null" else Some r
  | JStr s => Some (quote s)
  | JArr elems =>
      Some ("[" ++ String.concat ","
                     (map (fun x => match JSON_stringify x with
                                    | Some s => s
                                    | None => "null"
                                    end) elems) ++ "]")
  | JObj fields =>
      Some ("{" ++ String.concat ","
                     (flat_map (fun kv => match JSON_stringify (snd kv) with
                                          | Some s => [quote (fst kv) ++ ":" ++ s]
                                          | None => []
                                          end) fields) ++ "}")
  end.

(** [s.length]: UTF-16 code units of a string held as UTF-8 bytes; every
    byte that starts a character counts once, and twice when it starts a
    four-byte sequence (a surrogate pair). *)
Fixpoint utf16_length (s : string) : nat :=
  match s with
  | EmptyString => 0
  | String c rest =>
      let n := nat_of_ascii c in
      ((if Nat.leb 128 n && Nat.ltb n 192 then 0
        else if Nat.leb 240 n then 2 else 1) + utf16_length rest)%nat
  end.

Definition index_key (i : nat) : string :=
  NilZero.string_of_uint (Nat.to_uint i).

(** [Object.keys(v)]. *)
Definition Object_keys (v : value) : result (list string) :=
  match v with
  | JUndefined | JNull =>
      Thrown "Cannot convert undefined or null to object"
  | JObj fs => Ok (keys fs)
  | JArr elems => Ok (map index_key (seq 0 (List.length elems)))
  | JStr s => Ok (map index_key (seq 0 (utf16_length s)))
  | JBool _ | JNum _ => Ok []
  end.

(** [s.split(' ')]: cut at every single space; never the empty list. *)
Fixpoint split_space (s : string) : list string :=
  match s with
  | EmptyString => [""]
  | String c rest =>
      if Ascii.eqb c " "%char then "" :: split_space rest
      else match split_space rest with
           | tok :: toks => String c tok :: toks
           | [] => [String c ""]
           end
  end.

(** [v.split(' ')] on any value: only strings have the method. *)
Definition split (v : value) : result (list string) :=
  match v with
  | JStr s => Ok (split_space s)
  | _ => Thrown "to_name.split is not a function"
  end.

(** [parts.join(' ')] on an array of strings. *)
Definition join (parts : list string) : string := String.concat " " parts.

(** [parts[0]]. *)
Definition first (parts : list string) : value :=
  match parts with
  | [] => JUndefined
  | p :: _ => JStr p
  end.

(* ================================================================== *)
(** ** Programs that call the CRM                                      *)
(* ================================================================== *)

(** The three HubSpot calls the program makes through [hubspotAPI], each
    with what it sends. *)
Inductive request : Type :=
| Search (email : value)                    (* POST /crm/v3/objects/contacts/search *)
| Create (properties : value)               (* POST /crm/v3/objects/contacts *)
| Update (contactId : value) (properties : value). (* PATCH /crm/v3/objects/contacts/:id *)

(** What the program reads of a fulfilled call: [response.data.results] of a
    search, [response.data] of the other two. *)
Definition answer (r : request) : Type :=
  match r with
  | Search _ => list value
  | Create _ | Update _ _ => value
  end.

(** A handler body: it returns, throws, or awaits a CRM call that is either
    fulfilled with an answer or rejected with an error. *)
Inductive prog (A : Type) : Type :=
| Ret (a : A)
| Throw (e : error)
| Call (r : request) (k : result (answer r) -> prog A).
Arguments Ret {A} a.
Arguments Throw {A} e.
Arguments Call {A} r k.

Fixpoint bind {A B : Type} (p : prog A) (f : A -> prog B) : prog B :=
  match p with
  | Ret a => f a
  | Throw e => Throw e
  | Call r k => Call r (fun x => bind (k x) f)
  end.

(** [try { p } catch (error) { h error }]. *)
Fixpoint try_catch {A : Type} (p : prog A) (h : error -> prog A) : prog A :=
  match p with
  | Ret a => Ret a
  | Throw e => h e
  | Call r k => Call r (fun x => try_catch (k x) h)
  end.

Definition lift {A : Type} (x : result A) : prog A :=
  match x with
  | Ok a => Ret a
  | Thrown e => Throw e
  end.

(** [await hubspotAPI.post(...)] / [.patch(...)]. *)
Definition await (r : request) : prog (answer r) := Call r lift.

Declare Scope prog_scope.
Delimit Scope prog_scope with prog.
Notation "x <- p ;; q" := (bind p (fun x => q))
  (at level 100, p at next level, right associativity) : prog_scope.
Open Scope prog_scope.

(** One CRM exchange: the call made and how it ended. *)
Inductive exchange : Type :=
| Exchange (r : request) (a : result (answer r)).

Definition request_of (x : exchange) : request :=
  match x with Exchange r _ => r end.

(** A CRM: it answers each call and moves to a new state. *)
Definition crm (W : Type) : Type :=
  forall r : request, W -> result (answer r) * W.

(** Running a program against a CRM: the exchanges in order, the CRM's
    final state, and how the program ended. *)
Fixpoint run {W A : Type} (c : crm W) (p : prog A) (w : W)
  : list exchange * W * result A :=
  match p with
  | Ret a => ([], w, Ok a)
  | Throw e => ([], w, Thrown e)
  | Call r k =>
      let '(a, w') := c r w in
      let '(tr, w'', out) := run c (k a) w' in
      (Exchange r a :: tr, w'', out)
  end.

Definition trace {W A : Type} (o : list exchange * W * result A)
  : list exchange := fst (fst o).
Definition outcome {W A : Type} (o : list exchange * W * result A)
  : result A := snd o.

(* ================================================================== *)
(** ** The server                                                      *)
(* ================================================================== *)

(** An inbound request after [bodyParser.json()]: the headers (names in
    lower case, as Node gives them) and the parsed body. *)
Record Request : Type := mkRequest
  { headers : list (string * string);
    body : value }.

(** [res.status(code).json(payload)]. *)
Record Response : Type := mkResponse
  { status : Z;
    json : value }.

Fixpoint header (name : string) (hs : list (string * string))
  : option string :=
  match hs with
  | [] => None
  | (n, v) :: rest => if String.eqb name n then Some v else header name rest
  end.

Record ContactInfo : Type := mkContactInfo
  { firstName : value;
    lastName : value;
    phone : value;
    company : value }.

Record HubSpotContact : Type := mkHubSpotContact
  { found : bool;
    contactId : value;
    properties : value }.

Section Server.

(** [process.env.WEBHOOK_SECRET]: a string, or [None] when the variable is
    not set. *)
Variable WEBHOOK_SECRET : option string.

(** Truthiness of a value that is a string or [undefined]. *)
Definition present (x : option string) : bool :=
  match x with
  | None => false
  | Some s => negb (String.eqb s "")
  end.

Definition verifyWebhookSignature (req : Request) : result bool :=
  match WEBHOOK_SECRET with
  | None => Ok true
  | Some secret =>
      if negb (present (Some secret)) then Ok true
      else
        match header "x-webhook-signature" (headers req) with
        | None => Ok false
        | Some signature =>
            if negb (present (Some signature)) then Ok false
            else
              match JSON_stringify (body req) with
              | None =>
                  (* [Hmac.update(undefined)] *)
                  Thrown "The data argument must be of type string or an instance of Buffer, TypedArray, or DataView. Received undefined"
              | Some payload =>
                  let hash := createHmac_sha256_hex secret payload in
                  Ok (String.eqb hash signature)
              end
        end
  end.

(** The property map sent on creation (lines 110-117). *)
Definition properties_on_create (email : value) (contactData : ContactInfo)
  : list (string * value) :=
  let fn := firstName contactData in
  let ln := lastName contactData in
  let ph := phone contactData in
  let co := company contactData in
  spread (spread (spread (spread
    [("email", email); ("source_system", JStr "SGCRM")]
    (and_ fn (JObj [("firstname", fn)])))
    (and_ ln (JObj [("lastname", ln)])))
    (and_ ph (JObj [("phone", ph)])))
    (and_ co (JObj [("company", co)])).

Definition getOrCreateHubSpotContact (email : value)
    (contactData : ContactInfo) : prog HubSpotContact :=
  try_catch
    (results <- await (Search email) ;;
     match results with
     | first_result :: _ =>
         id <- lift (get first_result "id") ;;
         props <- lift (get first_result "properties") ;;
         Ret (mkHubSpotContact true id props)
     | [] =>
         data <- await
           (Create (JObj (properties_on_create email contactData))) ;;
         id <- lift (get data "id") ;;
         props <- lift (get data "properties") ;;
         Ret (mkHubSpotContact false id props)
     end)
    (fun error => Throw error).

Definition updateHubSpotContact (contactId propertiesToUpdate : value)
  : prog value :=
  try_catch
    (await (Update contactId propertiesToUpdate))
    (fun error => Throw error).

(** [hubspotContact.properties?.<name>?.value]. *)
Definition remote_value (hubspotContact : HubSpotContact) (name : string)
  : value :=
  get_opt (get_opt (properties hubspotContact) name) "value".

(** [if (field && !hubspotContact.properties?.<name>?.value)
       propertiesToUpdate.<name> = field]. *)
Definition fill_gap (hubspotContact : HubSpotContact) (name : string)
    (field : value) (propertiesToUpdate : list (string * value))
  : list (string * value) :=
  if truthy field && negb (truthy (remote_value hubspotContact name))
  then set name field propertiesToUpdate
  else propertiesToUpdate.

(** The four conditional assignments both handlers make, in order
    (lines 224-235 and 341-352). *)
Definition fill_gaps (contactInfo : ContactInfo)
    (hubspotContact : HubSpotContact)
    (propertiesToUpdate : list (string * value)) : list (string * value) :=
  fill_gap hubspotContact "company" (company contactInfo)
    (fill_gap hubspotContact "phone" (phone contactInfo)
       (fill_gap hubspotContact "lastname" (lastName contactInfo)
          (fill_gap hubspotContact "firstname" (firstName contactInfo)
             propertiesToUpdate))).

Definition respond (code : Z) (payload : list (string * value))
  : prog Response := Ret (mkResponse code (JObj payload)).

Definition processing_failed (message : error) : prog Response :=
  respond 500 [("error", JStr "Webhook processing failed");
               ("message", JStr message)].

Definition unauthorized : prog Response :=
  respond 401 [("error", JStr "Unauthorized: Invalid signature")].

Definition action_of (hubspotContact : HubSpotContact) : value :=
  JStr (if found hubspotContact then "updated" else "created").

Definition audit_action_of (hubspotContact : HubSpotContact) : value :=
  JStr (if found hubspotContact then "updated_existing" else "created_new").

Definition properties_updated (propertiesToUpdate : list (string * value))
  : value := JArr (map JStr (keys propertiesToUpdate)).

Definition success (hubspotContact : HubSpotContact) (auditLog : value)
  : prog Response :=
  respond 200 [("success", JBool true);
               ("hubspotContactId", contactId hubspotContact);
               ("action", action_of hubspotContact);
               ("auditLog", auditLog)].

(** *** [POST /webhook/salesgodscrm] *)

Definition sgcrm_contactEmail (body : value) : value :=
  or_ (or_ (prop body "email") (get_opt (prop body "contact") "email"))
      (get_opt (prop body "data") "email").

Definition sgcrm_contactInfo (body : value) : ContactInfo :=
  let contact := prop body "contact" in
  let data := prop body "data" in
  let pick own nested :=
    or_ (or_ (prop body own) (get_opt contact nested)) (get_opt data nested) in
  {| firstName := pick "firstName" "firstName";
     lastName := pick "lastName" "lastName";
     phone := pick "phoneNumber" "phoneNumber";
     company := pick "company" "company" |}.

Definition sgcrm_propertiesToUpdate (contactInfo : ContactInfo)
    (hubspotContact : HubSpotContact) (sgcrmId : value)
  : list (string * value) :=
  let propertiesToUpdate :=
    fill_gaps contactInfo hubspotContact
      [("source_system", JStr "SGCRM")] in
  if truthy sgcrmId
  then set "salesgodcrm_contact_id" sgcrmId propertiesToUpdate
  else propertiesToUpdate.

(** The audit record (lines 247-255); [now] is what
    [new Date().toISOString()] gives when it is built. *)
Definition sgcrm_auditLog (now : string) (sgcrmId contactEmail : value)
    (hubspotContact : HubSpotContact)
    (propertiesToUpdate : list (string * value)) : value :=
  JObj [("timestamp", JStr now);
        ("sgcrm_id", sgcrmId);
        ("hubspot_contact_id", contactId hubspotContact);
        ("email", contactEmail);
        ("action", audit_action_of hubspotContact);
        ("source_system", JStr "SGCRM");
        ("properties_updated", properties_updated propertiesToUpdate)].

Definition webhook_salesgodscrm (now : string) (req : Request)
  : prog Response :=
  try_catch
    (verified <- lift (verifyWebhookSignature req) ;;
     if negb verified then unauthorized
     else
       (* destructuring [req.body] throws on [undefined] and [null] *)
       sgcrmId <- lift (get (body req) "id") ;;
       let contactEmail := sgcrm_contactEmail (body req) in
       if negb (truthy contactEmail)
       then respond 400 [("error", JStr "Missing email in webhook payload");
                         ("payload", body req)]
       else
         let contactInfo := sgcrm_contactInfo (body req) in
         hubspotContact <-
           getOrCreateHubSpotContact contactEmail contactInfo ;;
         let contactId := contactId hubspotContact in
         let propertiesToUpdate :=
           sgcrm_propertiesToUpdate contactInfo hubspotContact sgcrmId in
         _ <- updateHubSpotContact contactId (JObj propertiesToUpdate) ;;
         let auditLog :=
           sgcrm_auditLog now sgcrmId contactEmail hubspotContact
             propertiesToUpdate in
         success hubspotContact auditLog)
    processing_failed.

(** *** [POST /webhook/smartlead] *)

Definition smartlead_contactEmail (body : value) : value :=
  or_ (prop body "to_email") (prop body "sl_lead_email").

(** [to_name ? to_name.split(' ') : []]. *)
Definition nameParts (to_name : value) : result (list string) :=
  if truthy to_name then split to_name else Ok [].

Definition smartlead_contactInfo (nameParts : list string) : ContactInfo :=
  {| firstName := or_ (first nameParts) JNull;
     lastName := or_ (JStr (join (tl nameParts))) JNull;
     phone := JNull;
     company := JNull |}.

Definition smartlead_propertiesToUpdate (contactInfo : ContactInfo)
    (hubspotContact : HubSpotContact) : list (string * value) :=
  fill_gaps contactInfo hubspotContact
    [("source_system", JStr "Smartlead Email Campaign")].

(** The audit record (lines 360-370). *)
Definition smartlead_auditLog (now : string) (body contactEmail : value)
    (hubspotContact : HubSpotContact)
    (propertiesToUpdate : list (string * value)) : value :=
  JObj [("timestamp", JStr now);
        ("smartlead_lead_id", prop body "sl_email_lead_id");
        ("smartlead_campaign", prop body "campaign_name");
        ("event_type", prop body "event_type");
        ("hubspot_contact_id", contactId hubspotContact);
        ("email", contactEmail);
        ("action", audit_action_of hubspotContact);
        ("source_system", JStr "Smartlead");
        ("properties_updated", properties_updated propertiesToUpdate)].

Definition webhook_smartlead (now : string) (req : Request)
  : prog Response :=
  (* [Object.keys(req.body)] is logged before the [try] *)
  _ <- lift (Object_keys (body req)) ;;
  try_catch
    (verified <- lift (verifyWebhookSignature req) ;;
     if negb verified then unauthorized
     else
       let to_name := prop (body req) "to_name" in
       let contactEmail := smartlead_contactEmail (body req) in
       if negb (truthy contactEmail)
       then
         availableFields <- lift (Object_keys (body req)) ;;
         respond 400 [("error", JStr "Missing email in webhook payload");
                      ("payload", body req);
                      ("availableFields", JArr (map JStr availableFields))]
       else
         parts <- lift (nameParts to_name) ;;
         let contactInfo := smartlead_contactInfo parts in
         hubspotContact <-
           getOrCreateHubSpotContact contactEmail contactInfo ;;
         let contactId := contactId hubspotContact in
         let propertiesToUpdate :=
           smartlead_propertiesToUpdate contactInfo hubspotContact in
         _ <- updateHubSpotContact contactId (JObj propertiesToUpdate) ;;
         let auditLog :=
           smartlead_auditLog now (body req) contactEmail hubspotContact
             propertiesToUpdate in
         success hubspotContact auditLog)
    processing_failed.

End Server.

(* ================================================================== *)
(** ** The remote CRM                                                  *)
(* ================================================================== *)

Module HubSpot.

(** Modelled from the spec: the remote CRM (HubSpot), which is reached over
    HTTP and is no part of the program.  Spec sections 4.2 and 6: a search
    by email is an exact match, limit 1, the most recently created contact
    first; a creation stores the property map it is given and answers with
    the new id and the created property map; an update sets the given
    properties on the contact with that id.  [shape] is how a stored
    property is presented in an answer; the spec's data model (section 3)
    presents it as an object with a [value] field, which is [nested]. *)

Record contact : Type := mkContact
  { id : string;
    props : list (string * value) }.

(** The contacts, most recently created first, and the next fresh id. *)
Record store : Type := mkStore
  { contacts : list contact;
    next_id : nat }.

Definition empty : store := mkStore [] 1.

Definition nested (v : value) : value := JObj [("value", v)].

(** The other presentation the deliveries are tried on: the bare value. *)
Definition flat (v : value) : value := v.

Section Shape.

Variable shape : value -> value.

Definition present_props (fs : list (string * value)) : value :=
  JObj (map (fun kv => (fst kv, shape (snd kv))) fs).

Definition present_contact (c : contact) : value :=
  JObj [("id", JStr (id c)); ("properties", present_props (props c))].

Definition has_email (email : string) (c : contact) : bool :=
  match lookup "email" (props c) with
  | Some (JStr e) => String.eqb e email
  | _ => false
  end.

(** Modelled from the spec: search contacts by email (equality filter,
    limit 1, most recent first). *)
Definition search (email : value) (w : store) : result (list value) * store :=
  match email with
  | JStr e =>
      (Ok (firstn 1 (map present_contact (filter (has_email e) (contacts w)))),
       w)
  | _ => (Thrown "Request failed with status code 400", w)
  end.

(** Modelled from the spec: create contact (property map), answered with
    the created id and properties. *)
Definition create (properties : value) (w : store) : result value * store :=
  match properties with
  | JObj fs =>
      let c := mkContact (index_key (next_id w)) fs in
      (Ok (present_contact c), mkStore (c :: contacts w) (S (next_id w)))
  | _ => (Thrown "Request failed with status code 400", w)
  end.

(** The contacts with the first one of the given id updated, or [None]
    when there is none. *)
Fixpoint patch (contactId : string) (fs : list (string * value))
    (cs : list contact) : option (contact * list contact) :=
  match cs with
  | [] => None
  | c :: rest =>
      if String.eqb contactId (id c)
      then let c' := mkContact (id c) (spread (props c) (JObj fs)) in
           Some (c', c' :: rest)
      else match patch contactId fs rest with
           | Some (c', rest') => Some (c', c :: rest')
           | None => None
           end
  end.

(** Modelled from the spec: update contact properties (id and property
    map), answered with the updated properties. *)
Definition update (contactId properties : value) (w : store)
  : result value * store :=
  match contactId, properties with
  | JStr i, JObj fs =>
      match patch i fs (contacts w) with
      | Some (c', cs') => (Ok (present_contact c'), mkStore cs' (next_id w))
      | None => (Thrown "Request failed with status code 404", w)
      end
  | _, _ => (Thrown "Request failed with status code 400", w)
  end.

(** Modelled from the spec: the CRM as the three calls above. *)
Definition hubspot : crm store :=
  fun r =>
    match r return store -> result (answer r) * store with
    | Search email => search email
    | Create properties => create properties
    | Update contactId properties => update contactId properties
    end.

End Shape.


End HubSpot.

(** The PropertyPatches of a run: what its update calls sent. *)
Fixpoint patches (tr : list exchange) : list value :=
  match tr with
  | [] => []
  | Exchange (Update _ properties) _ :: rest => properties :: patches rest
  | _ :: rest => patches rest
  end.


(** The [action] of a response, and the [action] of its audit record. *)
Definition action (out : result Response) : value :=
  match out with
  | Ok response => prop (json response) "action"
  | Thrown _ => JUndefined
  end.

Definition audit_action (out : result Response) : value :=
  match out with
  | Ok response => prop (prop (json response) "auditLog") "action"
  | Thrown _ => JUndefined
  end.

(** [testPayload1] of [test-webhook.js], with the two values the script
    takes from the clock fixed. *)
Definition testPayload1 : value :=
  JObj [("event", JStr "contact.created");
        ("data", JObj [("id", JStr "sgcrm_1");
                       ("email", JStr "test.lead@example.com");
                       ("firstName", JStr "Test");
                       ("lastName", JStr "Lead");
                       ("phoneNumber", JStr "+1-555-0123");
                       ("company", JStr "Test Company")]);
        ("timestamp", JStr "2024-01-01T00:00:00.000Z")].

(** A CRM that already holds a contact for the test email, with only its
    first name set. *)
Definition known_contact : HubSpot.contact :=
  HubSpot.mkContact "7"
    [("email", JStr "test.lead@example.com"); ("firstname", JStr "Existing")].

Definition known_store : HubSpot.store := HubSpot.mkStore [known_contact] 8.

(** A payload whose only email candidate is a number. *)
Definition numeric_email : Request :=
  mkRequest [] (JObj [("email", JNum "123"); ("firstName", JStr "Test")]).

(** A payload with no email at all. *)
Definition no_email : Request :=
  mkRequest [] (JObj [("firstName", JStr "Test"); ("email", JStr "")]).

(** The signed request of the spec's example: secret [s3cret], body
    [{ email: a@b.com }], and the hex HMAC-SHA256 of the serialized body. *)
Definition signed_request : Request :=
  mkRequest
    [("content-type", "application/json");
     ("x-webhook-signature",
      "f1ff66e5f412e0f1539594eff2ac553df37e5a2dae39a729b94717ce97eba2d4")]
    (JObj [("email", JStr "a@b.com")]).

(** A Smartlead event for a lead with a three-word name. *)
Definition smartlead_event : Request :=
  mkRequest []
    (JObj [("to_email", JStr "jane@example.com");
           ("to_name", JStr "Jane Mary Doe");
           ("event_type", JStr "EMAIL_SENT")]).

(** The same payload delivered twice, one after the other, to a CRM that
    holds no contact and presents properties as the spec's data model has
    them; no secret is configured. *)
Definition first_delivery : list exchange * HubSpot.store * result Response :=
  run (HubSpot.hubspot HubSpot.nested)
      (webhook_salesgodscrm None "2024-01-01T00:00:01.000Z"
         (mkRequest [] testPayload1))
      HubSpot.empty.


(** The same two deliveries to a CRM that presents bare values. *)
Definition first_delivery_flat
  : list exchange * HubSpot.store * result Response :=
  run (HubSpot.hubspot HubSpot.flat)
      (webhook_salesgodscrm None "2024-01-01T00:00:01.000Z"
         (mkRequest [] testPayload1))
      HubSpot.empty.



(** How a run of the resolver that returns went: the exchanges it made
    and the contact it hands back. *)
Inductive resolved (email : value) (contactInfo : ContactInfo)
  : list exchange -> HubSpotContact -> Prop :=
| resolved_existing (first_result : value) (others : list value) :
    nullish first_result = false ->
    resolved email contactInfo
      [Exchange (Search email) (Ok (first_result :: others))]
      (mkHubSpotContact true (prop first_result "id")
                        (prop first_result "properties"))
| resolved_new (data : value) :
    nullish data = false ->
    resolved email contactInfo
      [Exchange (Search email) (Ok []);
       Exchange (Create (JObj (properties_on_create email contactInfo)))
                (Ok data)]
      (mkHubSpotContact false (prop data "id") (prop data "properties")).

(** The contacts the searches of a run came back with ([results[0]]). *)
Fixpoint hits (tr : list exchange) : list value :=
  match tr with
  | [] => []
  | Exchange r a :: rest =>
      match r return result (answer r) -> list value with
      | Search _ => fun a =>
          match a with
          | Ok (first_result :: _) => first_result :: hits rest
          | _ => hits rest
          end
      | _ => fun _ => hits rest
      end a
  end.

(** What the creation calls of a run were answered with
    ([createResponse.data]). *)
Fixpoint creations (tr : list exchange) : list value :=
  match tr with
  | [] => []
  | Exchange r a :: rest =>
      match r return result (answer r) -> list value with
      | Create _ => fun a =>
          match a with
          | Ok data => data :: creations rest
          | Thrown _ => creations rest
          end
      | _ => fun _ => creations rest
      end a
  end.

(** The two routes, [app.post('/webhook/salesgodscrm', ...)] and
    [app.post('/webhook/smartlead', ...)]. *)
Inductive endpoint : Type := SalesGodCRM | Smartlead.

Definition handler (e : endpoint)
  : option string -> string -> Request -> prog Response :=
  match e with
  | SalesGodCRM => webhook_salesgodscrm
  | Smartlead => webhook_smartlead
  end.

(** The [source_system] each handler writes into its patch. *)
Definition label (e : endpoint) : string :=
  match e with
  | SalesGodCRM => "SGCRM"
  | Smartlead => "Smartlead Email Campaign"
  end.

(** The email fallback chain of each handler. *)
Definition contactEmail (e : endpoint) (body : value) : value :=
  match e with
  | SalesGodCRM => sgcrm_contactEmail body
  | Smartlead => smartlead_contactEmail body
  end.

(** The ContactIntent each handler derives from a payload; the Smartlead
    handler throws when [to_name] is truthy and no string. *)
Definition intent (e : endpoint) (body : value) : result ContactInfo :=
  match e with
  | SalesGodCRM => Ok (sgcrm_contactInfo body)
  | Smartlead =>
      match nameParts (prop body "to_name") with
      | Ok parts => Ok (smartlead_contactInfo parts)
      | Thrown err => Thrown err
      end
  end.

Definition propertiesToUpdate (e : endpoint) (body : value)
    (contactInfo : ContactInfo) (hubspotContact : HubSpotContact)
  : list (string * value) :=
  match e with
  | SalesGodCRM =>
      sgcrm_propertiesToUpdate contactInfo hubspotContact (prop body "id")
  | Smartlead => smartlead_propertiesToUpdate contactInfo hubspotContact
  end.

Definition auditLog (e : endpoint) (now : string) (body : value)
    (hubspotContact : HubSpotContact)
    (propertiesToUpdate : list (string * value)) : value :=
  match e with
  | SalesGodCRM =>
      sgcrm_auditLog now (prop body "id") (sgcrm_contactEmail body)
        hubspotContact propertiesToUpdate
  | Smartlead =>
      smartlead_auditLog now body (smartlead_contactEmail body)
        hubspotContact propertiesToUpdate
  end.

(** The email candidates of each handler, in the order of its fallback
    chain: [email || contact?.email || data?.email] and
    [to_email || sl_lead_email]. *)
Definition candidates (e : endpoint) (body : value) : list value :=
  match e with
  | SalesGodCRM =>
      [prop body "email"; get_opt (prop body "contact") "email";
       get_opt (prop body "data") "email"]
  | Smartlead => [prop body "to_email"; prop body "sl_lead_email"]
  end.

(** The names of the four contact fields the reconciler may fill. *)
Definition contact_fields : list string :=
  ["firstname"; "lastname"; "phone"; "company"].

(** The intent's value for each of them
    ([firstName -> firstname], [lastName -> lastname], [phone], [company]). *)
Definition field_of (contactInfo : ContactInfo) (name : string) : value :=
  if String.eqb name "firstname" then firstName contactInfo
  else if String.eqb name "lastname" then lastName contactInfo
  else if String.eqb name "phone" then phone contactInfo
  else company contactInfo.

(** The calls of a run, without their answers. *)
Definition requests (tr : list exchange) : list request :=
  map request_of tr.

Definition status_of (out : result Response) : option Z :=
  match out with
  | Ok response => Some (status response)
  | Thrown _ => None
  end.

(** A non-empty string. *)
Definition filled (v : value) : bool :=
  match v with
  | JStr s => negb (String.eqb s "")
  | _ => false
  end.


(** The error of an exchange that was rejected. *)
Definition rejection (x : exchange) : option error :=
  match x with
  | Exchange _ (Thrown err) => Some err
  | Exchange _ (Ok _) => None
  end.

(** Every way a run of the resolver can go: it returns a resolved contact,
    a call is rejected, or the answer holds [null] where a contact is
    expected and reading its [id] throws. *)
Inductive attempt (email : value) (contactInfo : ContactInfo)
  : list exchange -> result HubSpotContact -> Prop :=
| attempt_resolved (tr : list exchange) (hubspotContact : HubSpotContact) :
    resolved email contactInfo tr hubspotContact ->
    attempt email contactInfo tr (Ok hubspotContact)
| attempt_search_rejected (err : error) :
    attempt email contactInfo
      [Exchange (Search email) (Thrown err)] (Thrown err)
| attempt_null_result (first_result : value) (others : list value) :
    nullish first_result = true ->
    attempt email contactInfo
      [Exchange (Search email) (Ok (first_result :: others))]
      (Thrown "Cannot read properties of undefined (reading 'id')")
| attempt_create_rejected (err : error) :
    attempt email contactInfo
      [Exchange (Search email) (Ok []);
       Exchange (Create (JObj (properties_on_create email contactInfo)))
                (Thrown err)]
      (Thrown err)
| attempt_null_created (data : value) :
    nullish data = true ->
    attempt email contactInfo
      [Exchange (Search email) (Ok []);
       Exchange (Create (JObj (properties_on_create email contactInfo)))
                (Ok data)]
      (Thrown "Cannot read properties of undefined (reading 'id')").

(** [res.status(500).json(...)] of the [catch] of both handlers. *)
Definition failure (message : error) : Response :=
  mkResponse 500 (JObj [("error", JStr "Webhook processing failed");
                        ("message", JStr message)]).

(** The first truthy value of a chain [a || b || ...], or its last value
    when none is truthy. *)
Fixpoint first_truthy (vs : list value) : value :=
  match vs with
  | [] => JUndefined
  | [v] => v
  | v :: rest => if truthy v then v else first_truthy rest
  end.

(** The payload keys each field of the SalesGodCRM intent is read from, at
    the top level, under [contact] and under [data] (lines 205-210). *)
Definition sgcrm_key (name : string) : string :=
  if String.eqb name "firstname" then "firstName"
  else if String.eqb name "lastname" then "lastName"
  else if String.eqb name "phone" then "phoneNumber"
  else "company".

(** A SalesGodCRM payload that carries its own id at the top level. *)
Definition with_foreign_id : Request :=
  mkRequest []
    (JObj [("id", JStr "sgcrm_42");
           ("email", JStr "test.lead@example.com");
           ("firstName", JStr "Test")]).


(** A request whose signature header carries a prefixed digest. *)
Definition prefixed_signature : Request :=
  mkRequest
    [("x-webhook-signature",
      "sha256=f1ff66e5f412e0f1539594eff2ac553df37e5a2dae39a729b94717ce97eba2d4")]
    (JObj [("email", JStr "a@b.com")]).

(** *** Start-up and the health check *)

Inductive boot : Type :=
| Exit (code : Z)
| Serving.

(** Lines 27-33: without [HUBSPOT_API_KEY] the process exits with code 1
    before any route is registered. *)
Definition startup (HUBSPOT_API_KEY : option string) : boot :=
  if negb (present HUBSPOT_API_KEY) then Exit 1 else Serving.

(** [GET /health] (lines 395-401). *)
Definition health (HUBSPOT_API_KEY : option string) (now : string)
  : Response :=
  mkResponse 200
    (JObj [("status", JStr "ok");
           ("timestamp", JStr now);
           ("hubspotConnected", JBool (present HUBSPOT_API_KEY))]).

(** *** The test client ([test-webhook.js]) *)

(** What [new URL(WEBHOOK_PATH, WEBHOOK_URL)] gives, as far as the script
    reads it; [port] is the empty string when the URL names none. *)
Record ParsedUrl : Type := mkParsedUrl
  { protocol : string;
    hostname : string;
    port : string;
    pathname : string }.

(** The request [sendWebhook] hands to [client.request] and writes. *)
Record Outgoing : Type := mkOutgoing
  { out_hostname : string;
    out_port : value;
    out_path : string;
    out_method : string;
    out_headers : list (string * string);
    out_body : string }.

(** [Buffer.byteLength(s)] of a string held as its UTF-8 bytes. *)
Definition byteLength (s : string) : nat := String.length s.

(** [new URL('/webhook/salesgodscrm', 'http://localhost:3000')]. *)
Definition default_url : ParsedUrl :=
  mkParsedUrl "http:" "localhost" "3000" "/webhook/salesgodscrm".

(** [sendWebhook] up to [req.end()] (lines 64-110); [WEBHOOK_SECRET] is
    [args.secret || ''].  [Buffer.byteLength] throws when the payload does
    not serialize. *)
Definition sendWebhook (parsedUrl : ParsedUrl) (WEBHOOK_SECRET : string)
    (payload : value) : result Outgoing :=
  match JSON_stringify payload with
  | None =>
      Thrown "The string argument must be of type string or an instance of Buffer or ArrayBuffer. Received undefined"
  | Some payloadString =>
      let headers :=
        [("Content-Type", "application/json");
         ("Content-Length", index_key (byteLength payloadString))] in
      let headers :=
        if present (Some WEBHOOK_SECRET)
        then (headers ++ [("x-webhook-signature",
                           createHmac_sha256_hex WEBHOOK_SECRET
                             payloadString)])%list
        else headers in
      let isSecure := String.eqb (protocol parsedUrl) "https:" in
      Ok {| out_hostname := hostname parsedUrl;
            out_port := or_ (JStr (port parsedUrl))
                            (JNum (if isSecure then "443" else "80"));
            out_path := pathname parsedUrl;
            out_method := "POST";
            out_headers := headers;
            out_body := payloadString |}
  end.

(* ================================================================== *)
(** ** Running programs                                                *)
(* ================================================================== *)

Open Scope list_scope.

Arguments getOrCreateHubSpotContact : simpl never.
Arguments updateHubSpotContact : simpl never.
Arguments verifyWebhookSignature : simpl never.

(** Closes the cases of a handler that end without an update call. *)
Ltac no_patch :=
  left; split; [first [reflexivity | assumption] |];
  split; [discriminate | intros H; first [discriminate H | reflexivity]].

Section Run.

Context {W : Type} (c : crm W).

Lemma run_bind {A B : Type} (p : prog A) (f : A -> prog B) (w : W) :
  run c (bind p f) w =
  let '(tr, w1, out) := run c p w in
  match out with
  | Ok a => let '(tr2, w2, out2) := run c (f a) w1 in (tr ++ tr2, w2, out2)
  | Thrown e => (tr, w1, Thrown e)
  end.
Proof.
  revert w. induction p as [a | e | r k IH]; intros w; simpl.
  - destruct (run c (f a) w) as [[tr2 w2] out2]. reflexivity.
  - reflexivity.
  - destruct (c r w) as [a w']. rewrite IH.
    destruct (run c (k a) w') as [[tr w1] [x | e]].
    + destruct (run c (f x) w1) as [[tr2 w2] out2]. reflexivity.
    + reflexivity.
Qed.

Lemma run_try_catch {A : Type} (p : prog A) (h : error -> prog A) (w : W) :
  run c (try_catch p h) w =
  let '(tr, w1, out) := run c p w in
  match out with
  | Ok a => (tr, w1, Ok a)
  | Thrown e => let '(tr2, w2, out2) := run c (h e) w1 in (tr ++ tr2, w2, out2)
  end.
Proof.
  revert w. induction p as [a | e | r k IH]; intros w; simpl.
  - reflexivity.
  - destruct (run c (h e) w) as [[tr2 w2] out2]. reflexivity.
  - destruct (c r w) as [a w']. rewrite IH.
    destruct (run c (k a) w') as [[tr w1] [x | e]].
    + reflexivity.
    + destruct (run c (h e) w1) as [[tr2 w2] out2]. reflexivity.
Qed.

(** Logging an error and throwing it again changes nothing. *)
Lemma run_rethrow {A : Type} (p : prog A) (w : W) :
  run c (try_catch p (fun error => Throw error)) w = run c p w.
Proof.
  rewrite run_try_catch.
  destruct (run c p w) as [[tr w1] [a | e]]; simpl.
  - reflexivity.
  - now rewrite app_nil_r.
Qed.

Lemma run_await (r : request) (w : W) :
  run c (await r) w = ([Exchange r (fst (c r w))], snd (c r w), fst (c r w)).
Proof.
  unfold await. simpl. destruct (c r w) as [[a | e] w']; reflexivity.
Qed.

Lemma run_lift {A : Type} (x : result A) (w : W) :
  run c (lift x) w = ([], w, x).
Proof. destruct x; reflexivity. Qed.

(** The resolver either returns a resolved contact, or throws having made
    no update call. *)
Lemma run_getOrCreateHubSpotContact (email : value) (info : ContactInfo)
    (w : W) :
  match run c (getOrCreateHubSpotContact email info) w with
  | (tr, _, Ok hubspotContact) => resolved email info tr hubspotContact
  | (tr, _, Thrown _) => patches tr = []
  end.
Proof.
  unfold getOrCreateHubSpotContact. rewrite run_rethrow, run_bind, run_await.
  destruct (c (Search email) w) as [[results | e] w1]; simpl; [| reflexivity].
  destruct results as [| r0 rest]; simpl.
  - destruct (c (Create (JObj (properties_on_create email info))) w1)
      as [[data | e] w2]; simpl; [| reflexivity].
    unfold get. destruct (nullish data) eqn:Hn; simpl; [reflexivity |].
    now apply resolved_new.
  - unfold get. destruct (nullish r0) eqn:Hn; simpl; [reflexivity |].
    now apply resolved_existing.
Qed.

Lemma patches_app (tr1 tr2 : list exchange) :
  patches (tr1 ++ tr2) = patches tr1 ++ patches tr2.
Proof.
  induction tr1 as [| [[email | properties | contactId properties] a] tr1 IH];
    simpl; rewrite ?IH; reflexivity.
Qed.

Lemma hits_app (tr1 tr2 : list exchange) :
  hits (tr1 ++ tr2) = hits tr1 ++ hits tr2.
Proof.
  induction tr1 as [| [[email | properties | contactId properties] a] tr1 IH];
    simpl; rewrite ?IH; try reflexivity.
  destruct a as [[| r0 rest] | e]; reflexivity.
Qed.

Lemma creations_app (tr1 tr2 : list exchange) :
  creations (tr1 ++ tr2) = creations tr1 ++ creations tr2.
Proof.
  induction tr1 as [| [[email | properties | contactId properties] a] tr1 IH];
    simpl; rewrite ?IH; try reflexivity.
  destruct a as [data | e]; reflexivity.
Qed.

Lemma resolved_patches (email : value) (info : ContactInfo)
    (tr : list exchange) (hubspotContact : HubSpotContact) :
  resolved email info tr hubspotContact -> patches tr = [].
Proof. intros [r0 rest Hn | data Hn]; reflexivity. Qed.

(** What a search hit tells about the resolved contact. *)
Lemma resolved_hits (email : value) (info : ContactInfo)
    (tr : list exchange) (hubspotContact : HubSpotContact) (r0 : value) :
  resolved email info tr hubspotContact ->
  In r0 (hits tr) ->
  found hubspotContact = true /\
  properties hubspotContact = prop r0 "properties".
Proof.
  intros [r1 rest Hn | data Hn]; simpl.
  - intros [<- | []]. split; reflexivity.
  - intros [].
Qed.

(** A run of the SalesGodCRM handler either makes no update call and does
    not answer 200, or resolves the contact and sends one patch. *)
Lemma run_webhook_salesgodscrm (secret : option string) (now : string)
    (req : Request) (w : W) :
  let o := run c (webhook_salesgodscrm secret now req) w in
  let email := sgcrm_contactEmail (body req) in
  let info := sgcrm_contactInfo (body req) in
  let sgcrmId := prop (body req) "id" in
  (patches (trace o) = [] /\ status_of (outcome o) <> Some 200%Z /\
   (status_of (outcome o) = Some 401%Z ->
    verifyWebhookSignature secret req = Ok false)) \/
  (exists pre hubspotContact a,
      resolved email info pre hubspotContact /\
      let patch := sgcrm_propertiesToUpdate info hubspotContact sgcrmId in
      trace o =
        pre ++ [Exchange (Update (contactId hubspotContact) (JObj patch)) a]
      /\
      outcome o =
        match a with
        | Ok _ =>
            Ok (mkResponse 200
                  (JObj [("success", JBool true);
                         ("hubspotContactId", contactId hubspotContact);
                         ("action", action_of hubspotContact);
                         ("auditLog",
                          sgcrm_auditLog now sgcrmId email hubspotContact
                            patch)]))
        | Thrown e =>
            Ok (mkResponse 500
                  (JObj [("error", JStr "Webhook processing failed");
                         ("message", JStr e)]))
        end).
Proof.
  unfold webhook_salesgodscrm. rewrite run_try_catch, run_bind, run_lift.
  destruct (verifyWebhookSignature secret req) as [[|] | e]; cbn;
    [| no_patch ..].
  rewrite run_bind, run_lift. unfold get.
  destruct (nullish (body req)); cbn;
    [no_patch |].
  destruct (truthy (sgcrm_contactEmail (body req))); cbn;
    [| no_patch].
  rewrite run_bind.
  pose proof (run_getOrCreateHubSpotContact (sgcrm_contactEmail (body req))
                (sgcrm_contactInfo (body req)) w) as Hres.
  destruct (run c (getOrCreateHubSpotContact _ _) w)
    as [[pre w1] [hubspotContact | e]]; cbn.
  - rewrite run_bind. unfold updateHubSpotContact.
    rewrite run_rethrow, (run_await (Update _ _) w1).
    right. exists pre, hubspotContact.
    match goal with
    | |- context [c ?r w1] => destruct (c r w1) as [[data | e] w2]; cbn
    end.
    + exists (Ok data). rewrite ?app_nil_r. auto.
    + exists (Thrown e). rewrite ?app_nil_r. auto.
  - rewrite ?app_nil_r. no_patch.
Qed.

(** The same for the Smartlead handler. *)
Lemma run_webhook_smartlead (secret : option string) (now : string)
    (req : Request) (w : W) :
  let o := run c (webhook_smartlead secret now req) w in
  let email := smartlead_contactEmail (body req) in
  (patches (trace o) = [] /\ status_of (outcome o) <> Some 200%Z /\
   (status_of (outcome o) = Some 401%Z ->
    verifyWebhookSignature secret req = Ok false)) \/
  (exists parts pre hubspotContact a,
      nameParts (prop (body req) "to_name") = Ok parts /\
      let info := smartlead_contactInfo parts in
      resolved email info pre hubspotContact /\
      let patch := smartlead_propertiesToUpdate info hubspotContact in
      trace o =
        pre ++ [Exchange (Update (contactId hubspotContact) (JObj patch)) a]
      /\
      outcome o =
        match a with
        | Ok _ =>
            Ok (mkResponse 200
                  (JObj [("success", JBool true);
                         ("hubspotContactId", contactId hubspotContact);
                         ("action", action_of hubspotContact);
                         ("auditLog",
                          smartlead_auditLog now (body req) email
                            hubspotContact patch)]))
        | Thrown e =>
            Ok (mkResponse 500
                  (JObj [("error", JStr "Webhook processing failed");
                         ("message", JStr e)]))
        end).
Proof.
  unfold webhook_smartlead. rewrite run_bind, run_lift.
  destruct (Object_keys (body req)) as [fields | e]; cbn;
    [| no_patch].
  rewrite run_try_catch, run_bind, run_lift.
  destruct (verifyWebhookSignature secret req) as [[|] | e]; cbn;
    [| no_patch ..].
  destruct (truthy (smartlead_contactEmail (body req))); cbn;
    [| no_patch].
  rewrite run_bind, run_lift.
  destruct (nameParts (prop (body req) "to_name")) as [parts | e]; cbn;
    [| no_patch].
  rewrite run_bind.
  pose proof (run_getOrCreateHubSpotContact
                (smartlead_contactEmail (body req))
                (smartlead_contactInfo parts) w) as Hres.
  destruct (run c (getOrCreateHubSpotContact _ _) w)
    as [[pre w1] [hubspotContact | e]]; cbn.
  - rewrite run_bind. unfold updateHubSpotContact.
    rewrite run_rethrow, (run_await (Update _ _) w1).
    right. exists parts, pre, hubspotContact.
    match goal with
    | |- context [c ?r w1] => destruct (c r w1) as [[data | e] w2]; cbn
    end.
    + exists (Ok data). rewrite ?app_nil_r. auto.
    + exists (Thrown e). rewrite ?app_nil_r. auto.
  - rewrite ?app_nil_r. no_patch.
Qed.

(** Both handlers at once: a run either sends no patch and does not answer
    200, or resolves the contact, sends one patch and answers 200 when the
    update is fulfilled and 500 when it is rejected. *)
Lemma run_handler (e : endpoint) (secret : option string) (now : string)
    (req : Request) (w : W) :
  let o := run c (handler e secret now req) w in
  (patches (trace o) = [] /\ status_of (outcome o) <> Some 200%Z /\
   (status_of (outcome o) = Some 401%Z ->
    verifyWebhookSignature secret req = Ok false)) \/
  (exists info pre hubspotContact a,
      intent e (body req) = Ok info /\
      resolved (contactEmail e (body req)) info pre hubspotContact /\
      let patch := propertiesToUpdate e (body req) info hubspotContact in
      trace o =
        pre ++ [Exchange (Update (contactId hubspotContact) (JObj patch)) a]
      /\
      outcome o =
        match a with
        | Ok _ =>
            Ok (mkResponse 200
                  (JObj [("success", JBool true);
                         ("hubspotContactId", contactId hubspotContact);
                         ("action", action_of hubspotContact);
                         ("auditLog",
                          auditLog e now (body req) hubspotContact patch)]))
        | Thrown err =>
            Ok (mkResponse 500
                  (JObj [("error", JStr "Webhook processing failed");
                         ("message", JStr err)]))
        end).
Proof.
  destruct e; cbn [handler contactEmail propertiesToUpdate auditLog intent].
  - destruct (run_webhook_salesgodscrm secret now req w)
      as [H | (pre & hc & a & H)]; [left; exact H | right].
    exists (sgcrm_contactInfo (body req)), pre, hc, a.
    split; [reflexivity | exact H].
  - destruct (run_webhook_smartlead secret now req w)
      as [H | (parts & pre & hc & a & Hparts & H)]; [left; exact H | right].
    exists (smartlead_contactInfo parts), pre, hc, a.
    rewrite Hparts. split; [reflexivity | exact H].
Qed.

(** The patches of a run: none, or the one the reconciler computed from the
    resolved contact. *)
Lemma patches_handler (e : endpoint) (secret : option string) (now : string)
    (req : Request) (w : W) (patch : value) :
  let o := run c (handler e secret now req) w in
  In patch (patches (trace o)) ->
  exists info pre hubspotContact,
    intent e (body req) = Ok info /\
    resolved (contactEmail e (body req)) info pre hubspotContact /\
    hits (trace o) = hits pre /\
    patch = JObj (propertiesToUpdate e (body req) info hubspotContact).
Proof.
  intros o Hin. subst o.
  pose proof (run_handler e secret now req w) as H. cbv zeta in H.
  destruct H as [[Hnone _] | (info & pre & hc & a & Hinfo & Hres & Htr & _)].
  - rewrite Hnone in Hin. destruct Hin.
  - exists info, pre, hc. split; [exact Hinfo |]. split; [exact Hres |].
    rewrite Htr, patches_app, (resolved_patches _ _ _ _ Hres) in Hin.
    rewrite Htr, hits_app. cbn in *. rewrite app_nil_r.
    destruct Hin as [<- | []]. auto.
Qed.

End Run.

(* ================================================================== *)
(** ** Objects and the fill-gaps merge                                 *)
(* ================================================================== *)

Lemma lookup_set_same (k : string) (v : value) (fs : list (string * value)) :
  lookup k (set k v fs) = Some v.
Proof.
  induction fs as [| [k' v'] fs IH]; simpl.
  - now rewrite String.eqb_refl.
  - destruct (String.eqb k k') eqn:E; simpl.
    + now rewrite String.eqb_refl.
    + now rewrite E.
Qed.

Lemma lookup_set_other (k k' : string) (v : value)
    (fs : list (string * value)) :
  String.eqb k k' = false -> lookup k (set k' v fs) = lookup k fs.
Proof.
  intros Hk. induction fs as [| [k0 v0] fs IH]; simpl.
  - now rewrite Hk.
  - destruct (String.eqb k' k0) eqn:E; simpl.
    + apply String.eqb_eq in E. subst k0. now rewrite Hk.
    + now rewrite IH.
Qed.

Lemma lookup_set (k k' : string) (v : value) (fs : list (string * value)) :
  lookup k (set k' v fs) = if String.eqb k k' then Some v else lookup k fs.
Proof.
  destruct (String.eqb k k') eqn:E.
  - apply String.eqb_eq in E. subst k'. apply lookup_set_same.
  - now apply lookup_set_other.
Qed.

Lemma keys_set (k : string) (v : value) (fs : list (string * value)) :
  incl (keys (set k v fs)) (keys fs ++ [k]).
Proof.
  induction fs as [| [k' v'] fs IH]; simpl.
  - apply incl_refl.
  - destruct (String.eqb k k') eqn:E; simpl.
    + apply String.eqb_eq in E. subst k'.
      apply incl_cons; [now left |].
      apply incl_tl, incl_appl, incl_refl.
    + apply incl_cons; [now left |]. now apply incl_tl.
Qed.

Lemma lookup_fill_gap (hubspotContact : HubSpotContact) (name : string)
    (field : value) (fs : list (string * value)) (k : string) :
  lookup k (fill_gap hubspotContact name field fs) =
  if String.eqb k name && (truthy field
                           && negb (truthy (remote_value hubspotContact name)))
  then Some field else lookup k fs.
Proof.
  unfold fill_gap.
  destruct (truthy field && negb (truthy (remote_value hubspotContact name))).
  - rewrite lookup_set, andb_true_r. reflexivity.
  - now rewrite andb_false_r.
Qed.

Lemma keys_fill_gap (hubspotContact : HubSpotContact) (name : string)
    (field : value) (fs : list (string * value)) :
  incl (keys (fill_gap hubspotContact name field fs)) (keys fs ++ [name]).
Proof.
  unfold fill_gap.
  destruct (truthy field && negb (truthy (remote_value hubspotContact name))).
  - apply keys_set.
  - apply incl_appl, incl_refl.
Qed.


(** What the patch holds for one of the four contact fields: the intent's
    value when that is truthy and the remote value is not, nothing
    otherwise. *)
Lemma lookup_fill_gaps (info : ContactInfo) (hubspotContact : HubSpotContact)
    (base : list (string * value)) (name : string) :
  In name contact_fields ->
  lookup name base = None ->
  lookup name (fill_gaps info hubspotContact base) =
  if truthy (field_of info name)
     && negb (truthy (remote_value hubspotContact name))
  then Some (field_of info name) else None.
Proof.
  intros Hin Hbase. unfold fill_gaps. rewrite !lookup_fill_gap, Hbase.
  unfold contact_fields in Hin. simpl in Hin.
  destruct Hin as [<- | [<- | [<- | [<- | []]]]];
    unfold field_of; cbn [String.eqb Ascii.eqb Bool.eqb andb];
    repeat match goal with
           | |- context [if ?b then _ else _] => destruct b
           end; reflexivity.
Qed.

Lemma lookup_fill_gaps_other (info : ContactInfo)
    (hubspotContact : HubSpotContact) (base : list (string * value))
    (k : string) :
  ~ In k contact_fields ->
  lookup k (fill_gaps info hubspotContact base) = lookup k base.
Proof.
  intros Hk. unfold fill_gaps. rewrite !lookup_fill_gap.
  unfold contact_fields in Hk. simpl in Hk.
  destruct (String.eqb k "company") eqn:E1;
    [apply String.eqb_eq in E1; subst k; tauto |].
  destruct (String.eqb k "phone") eqn:E2;
    [apply String.eqb_eq in E2; subst k; tauto |].
  destruct (String.eqb k "lastname") eqn:E3;
    [apply String.eqb_eq in E3; subst k; tauto |].
  destruct (String.eqb k "firstname") eqn:E4;
    [apply String.eqb_eq in E4; subst k; tauto |].
  reflexivity.
Qed.

Lemma filled_truthy (v : value) : filled v = true -> truthy v = true.
Proof. destruct v; simpl; congruence. Qed.

(** The patch of either handler always carries the handler's label. *)
Lemma lookup_source_system (e : endpoint) (body : value) (info : ContactInfo)
    (hubspotContact : HubSpotContact) :
  lookup "source_system" (propertiesToUpdate e body info hubspotContact) =
  Some (JStr (label e)).
Proof.
  destruct e; cbn [propertiesToUpdate label];
    unfold sgcrm_propertiesToUpdate, smartlead_propertiesToUpdate.
  - destruct (truthy (prop body "id")).
    + rewrite lookup_set_other by reflexivity.
      rewrite lookup_fill_gaps_other; [reflexivity |].
      unfold contact_fields; simpl; intuition discriminate.
    + rewrite lookup_fill_gaps_other; [reflexivity |].
      unfold contact_fields; simpl; intuition discriminate.
  - rewrite lookup_fill_gaps_other; [reflexivity |].
    unfold contact_fields; simpl; intuition discriminate.
Qed.

(** A remote field that holds a value stays out of the patch. *)
Lemma lookup_remote_set (e : endpoint) (body : value) (info : ContactInfo)
    (hubspotContact : HubSpotContact) (name : string) :
  In name contact_fields ->
  truthy (remote_value hubspotContact name) = true ->
  lookup name (propertiesToUpdate e body info hubspotContact) = None.
Proof.
  intros Hin Hset.
  assert (Hother : String.eqb name "salesgodcrm_contact_id" = false).
  { unfold contact_fields in Hin. simpl in Hin.
    destruct Hin as [<- | [<- | [<- | [<- | []]]]]; reflexivity. }
  assert (Hbase : forall l, lookup name [("source_system", JStr l)] = None).
  { intros l. unfold contact_fields in Hin. simpl in Hin.
    destruct Hin as [<- | [<- | [<- | [<- | []]]]]; reflexivity. }
  destruct e; cbn [propertiesToUpdate];
    unfold sgcrm_propertiesToUpdate, smartlead_propertiesToUpdate.
  - destruct (truthy (prop body "id")).
    + rewrite lookup_set_other by exact Hother.
      rewrite lookup_fill_gaps by auto.
      now rewrite Hset, andb_false_r.
    + rewrite lookup_fill_gaps by auto.
      now rewrite Hset, andb_false_r.
  - rewrite lookup_fill_gaps by auto.
    now rewrite Hset, andb_false_r.
Qed.

Lemma lookup_None_keys (k : string) (fs : list (string * value)) :
  lookup k fs = None -> ~ In k (keys fs).
Proof.
  induction fs as [| [k' v] fs IH]; simpl; [tauto |].
  destruct (String.eqb k k') eqn:E; [discriminate |].
  apply String.eqb_neq in E. intros Hnone [Heq | Hin]; [congruence |].
  now apply IH.
Qed.

(* ================================================================== *)
(** ** Invariants of the PropertyPatch                                 *)
(* ================================================================== *)

(** C1: when the search comes back with an existing contact whose
    [firstname] (or [lastname], [phone], [company]) property holds a
    non-empty value, the patch sent by either handler does not contain that
    key, whatever the payload says. *)
Theorem no_overwrite :
  forall (W : Type) (c : crm W) (e : endpoint) (secret : option string)
         (now : string) (req : Request) (w : W)
         (existing : value) (name : string) (patch : value),
    In existing (hits (trace (run c (handler e secret now req) w))) ->
    In name ["firstname"; "lastname"; "phone"; "company"] ->
    filled (get_opt (get_opt (prop existing "properties") name) "value")
      = true ->
    In patch (patches (trace (run c (handler e secret now req) w))) ->
    exists fs, patch = JObj fs /\ ~ In name (keys fs).
Proof.
  intros W c e secret now req w existing name patch Hhit Hname Hfilled Hpatch.
  destruct (patches_handler c e secret now req w patch Hpatch)
    as (info & pre & hc & _ & Hres & Hhits & ->).
  rewrite Hhits in Hhit.
  destruct (resolved_hits _ _ _ _ _ Hres Hhit) as [_ Hprops].
  eexists. split; [reflexivity |].
  apply lookup_None_keys, lookup_remote_set; [exact Hname |].
  unfold remote_value. rewrite Hprops. now apply filled_truthy.
Qed.

(** C2: on both endpoints every patch that is computed is a non-empty
    object whose [source_system] is the endpoint's label: [SGCRM] for the
    SalesGodCRM endpoint, [Smartlead Email Campaign] for Smartlead. *)
Theorem source_system_always_set :
  forall (W : Type) (c : crm W) (e : endpoint) (secret : option string)
         (now : string) (req : Request) (w : W) (patch : value),
    In patch (patches (trace (run c (handler e secret now req) w))) ->
    exists fs,
      patch = JObj fs /\ fs <> [] /\
      lookup "source_system" fs =
      Some (JStr match e with
                 | SalesGodCRM => "SGCRM"
                 | Smartlead => "Smartlead Email Campaign"
                 end).
Proof.
  intros W c e secret now req w patch Hpatch.
  destruct (patches_handler c e secret now req w patch Hpatch)
    as (info & pre & hc & _ & _ & _ & ->).
  pose proof (lookup_source_system e (body req) info hc) as Hlabel.
  eexists. split; [reflexivity |]. split.
  - intros Hnil. rewrite Hnil in Hlabel. discriminate.
  - rewrite Hlabel. destruct e; reflexivity.
Qed.

(** C10: the Smartlead handler's ContactIntent has [phone] and [company]
    null whatever the payload, and every patch it sends has its keys among
    [source_system], [firstname] and [lastname]. *)
Theorem smartlead_patch_keys :
  forall (W : Type) (c : crm W) (secret : option string) (now : string)
         (req : Request) (w : W),
    (forall parts : list string,
        phone (smartlead_contactInfo parts) = JNull /\
        company (smartlead_contactInfo parts) = JNull) /\
    (forall patch : value,
        In patch (patches (trace (run c (webhook_smartlead secret now req) w)))
        -> exists fs,
          patch = JObj fs /\
          incl (keys fs) ["source_system"; "firstname"; "lastname"]).
Proof.
  intros W c secret now req w. split; [intros parts; split; reflexivity |].
  intros patch Hpatch.
  destruct (patches_handler c Smartlead secret now req w patch Hpatch)
    as (info & pre & hc & Hinfo & _ & _ & ->).
  cbn [intent] in Hinfo.
  destruct (nameParts (prop (body req) "to_name")) as [parts | err];
    [| discriminate].
  injection Hinfo as <-.
  eexists. split; [reflexivity |].
  cbn [propertiesToUpdate]. unfold smartlead_propertiesToUpdate, fill_gaps.
  cbn [phone company smartlead_contactInfo].
  unfold fill_gap at 1 2. cbn [truthy andb].
  eapply incl_tran; [apply keys_fill_gap |].
  apply incl_app; [| intros k [<- | []]; simpl; auto].
  eapply incl_tran; [apply keys_fill_gap |].
  simpl. intros k [<- | [<- | []]]; simpl; auto.
Qed.

(* ================================================================== *)
(** ** The signature gate                                              *)
(* ================================================================== *)

Lemma digest_nonempty (msg : list Z) :
  exists b bs, SHA256.digest msg = b :: bs.
Proof.
  unfold SHA256.digest. cbv zeta.
  generalize (SHA256.digest_state msg). intros s.
  unfold flat_map, SHA256.bytes_of_word. cbn [app]. eauto.
Qed.

(** A hex digest is never the empty string. *)
Lemma createHmac_sha256_hex_nonempty (key payload : string) :
  createHmac_sha256_hex key payload <> "".
Proof.
  unfold createHmac_sha256_hex, SHA256.hmac. cbv zeta.
  match goal with
  | |- Hex.encode (SHA256.digest ?m) <> _ =>
      destruct (digest_nonempty m) as (b & bs & ->)
  end.
  discriminate.
Qed.

Lemma stringify_defined (v : value) :
  nullish v = false -> exists payload, JSON_stringify v = Some payload.
Proof.
  destruct v as [| | [|] | r | s | elems | fields]; simpl;
    try discriminate; intros _; eauto.
  destruct (_ || _); eauto.
Qed.

(** With a secret configured, the gate compares the header with the hex
    HMAC of the serialized body. *)
Lemma verify_configured (secret : string) (req : Request) (payload : string) :
  secret <> "" ->
  JSON_stringify (body req) = Some payload ->
  verifyWebhookSignature (Some secret) req =
  Ok match header "x-webhook-signature" (headers req) with
     | Some signature =>
         String.eqb (createHmac_sha256_hex secret payload) signature
     | None => false
     end.
Proof.
  intros Hsecret Hpayload. unfold verifyWebhookSignature, present.
  apply String.eqb_neq in Hsecret. rewrite Hsecret. cbn [negb].
  destruct (header "x-webhook-signature" (headers req)) as [signature |];
    [| reflexivity].
  destruct (String.eqb signature "") eqn:E; cbn [negb].
  - apply String.eqb_eq in E. subst signature.
    pose proof (createHmac_sha256_hex_nonempty secret payload) as Hhash.
    apply String.eqb_neq in Hhash. now rewrite Hhash.
  - now rewrite Hpayload.
Qed.

Lemma Object_keys_defined (v : value) :
  nullish v = false -> exists ks, Object_keys v = Ok ks.
Proof. destruct v; simpl; try discriminate; eauto. Qed.

(** A request the gate turns down is answered 401 before any CRM call. *)
Lemma run_unauthorized (W : Type) (c : crm W) (e : endpoint)
    (secret : option string) (now : string) (req : Request) (w : W) :
  nullish (body req) = false ->
  verifyWebhookSignature secret req = Ok false ->
  run c (handler e secret now req) w =
  ([], w,
   Ok (mkResponse 401 (JObj [("error", JStr "Unauthorized: Invalid signature")]))).
Proof.
  intros Hbody Hgate.
  destruct e; cbn [handler]; unfold webhook_salesgodscrm, webhook_smartlead.
  - rewrite Hgate. reflexivity.
  - destruct (Object_keys_defined _ Hbody) as [ks ->]. cbn [lift bind].
    rewrite Hgate. reflexivity.
Qed.

(** C6: with a secret configured, the gate accepts a request exactly when
    its [x-webhook-signature] header is the hex HMAC-SHA256 of the
    serialized body under the secret; any other request, the header missing
    or different, is answered 401 on either endpoint with no CRM call. *)
Theorem signature_gate :
  forall (secret : string) (req : Request),
    secret <> "" ->
    nullish (body req) = false ->
    exists payload,
      JSON_stringify (body req) = Some payload /\
      (verifyWebhookSignature (Some secret) req = Ok true <->
       header "x-webhook-signature" (headers req) =
       Some (createHmac_sha256_hex secret payload)) /\
      (header "x-webhook-signature" (headers req) <>
       Some (createHmac_sha256_hex secret payload) ->
       forall (W : Type) (c : crm W) (e : endpoint) (now : string) (w : W),
         run c (handler e (Some secret) now req) w =
         ([], w,
          Ok (mkResponse 401
                (JObj [("error", JStr "Unauthorized: Invalid signature")])))).
Proof.
  intros secret req Hsecret Hbody.
  destruct (stringify_defined _ Hbody) as [payload Hpayload].
  exists payload. split; [exact Hpayload |].
  pose proof (verify_configured secret req payload Hsecret Hpayload) as Hv.
  destruct (header "x-webhook-signature" (headers req)) as [signature |].
  - destruct (String.eqb (createHmac_sha256_hex secret payload) signature)
      eqn:E.
    + apply String.eqb_eq in E. subst signature. split.
      * split; [reflexivity | intros _; exact Hv].
      * intros Hneq. now contradiction Hneq.
    + apply String.eqb_neq in E. split.
      * rewrite Hv. split; [discriminate | intros [= ->]; now contradiction E].
      * intros _ W c e now w. now apply run_unauthorized.
  - split.
    + rewrite Hv. split; discriminate.
    + intros _ W c e now w. now apply run_unauthorized.
Qed.

(** C7: with no secret configured (the variable unset, or set to the empty
    string) the gate passes every request, whatever its signature header,
    and neither handler ever answers 401. *)
Theorem gate_open_without_secret :
  forall (secret : option string) (req : Request),
    present secret = false ->
    verifyWebhookSignature secret req = Ok true /\
    forall (W : Type) (c : crm W) (e : endpoint) (now : string) (w : W),
      status_of (outcome (run c (handler e secret now req) w)) <> Some 401%Z.
Proof.
  intros secret req Hsecret.
  assert (Hgate : verifyWebhookSignature secret req = Ok true).
  { unfold verifyWebhookSignature. destruct secret as [s |]; [| reflexivity].
    now rewrite Hsecret. }
  split; [exact Hgate |].
  intros W c e now w.
  pose proof (run_handler c e secret now req w) as H. cbv zeta in H.
  destruct H as [(_ & _ & H401) | (info & pre & hc & a & _ & _ & _ & Hout)].
  - intros Hstatus. apply H401 in Hstatus. congruence.
  - rewrite Hout. destruct a; discriminate.
Qed.

(* ================================================================== *)
(** ** Missing identity                                                *)
(* ================================================================== *)

Lemma contactEmail_falsy (e : endpoint) (body : value) :
  Forall (fun v => truthy v = false) (candidates e body) ->
  truthy (contactEmail e body) = false.
Proof.
  destruct e; cbn [candidates contactEmail];
    unfold sgcrm_contactEmail, smartlead_contactEmail, or_; intros H.
  - inversion_clear H as [| ? ? H1 H']. inversion_clear H' as [| ? ? H2 H''].
    inversion_clear H'' as [| ? ? H3 _].
    rewrite H1, H2. exact H3.
  - inversion_clear H as [| ? ? H1 H']. inversion_clear H' as [| ? ? H2 _].
    rewrite H1. exact H2.
Qed.

(** C5, amended: a payload that passes the gate and in which every email
    candidate of the endpoint's fallback chain is absent or falsy
    ([undefined], [null], [false], [0], the empty string) is answered 400,
    and no CRM call is made. *)
Theorem missing_identity :
  forall (W : Type) (c : crm W) (e : endpoint) (secret : option string)
         (now : string) (req : Request) (w : W),
    verifyWebhookSignature secret req = Ok true ->
    nullish (body req) = false ->
    Forall (fun v => truthy v = false) (candidates e (body req)) ->
    exists payload,
      run c (handler e secret now req) w =
      ([], w, Ok (mkResponse 400 (JObj payload))) /\
      lookup "error" payload = Some (JStr "Missing email in webhook payload").
Proof.
  intros W c e secret now req w Hgate Hbody Hcand.
  pose proof (contactEmail_falsy e (body req) Hcand) as Hemail.
  destruct e; cbn [handler contactEmail] in *;
    unfold webhook_salesgodscrm, webhook_smartlead.
  - rewrite Hgate. unfold get. rewrite Hbody. cbn [lift bind negb].
    rewrite Hemail. cbn. eexists. split; reflexivity.
  - destruct (Object_keys_defined _ Hbody) as [ks Hks]. rewrite Hks.
    cbn [lift bind]. rewrite Hgate. cbn [lift bind negb].
    rewrite Hemail. cbn. eexists. split; reflexivity.
Qed.

(* ================================================================== *)
(** ** Splitting the full name                                         *)
(* ================================================================== *)

Lemma split_space_nonempty (s : string) : split_space s <> [].
Proof.
  destruct s as [| ch rest]; simpl; [discriminate |].
  destruct (Ascii.eqb ch " "); [discriminate |].
  destruct (split_space rest); discriminate.
Qed.

(** C8, amended: for a non-empty [to_name] string the first
    space-separated token becomes [firstName], an empty first token (a name
    that starts with a space) becoming null; the remaining tokens joined by
    single spaces become [lastName], an empty remainder becoming null; so
    [Jane Mary Doe] gives [Jane] and [Mary Doe], and [Solo] gives [Solo] and
    null. *)
Theorem full_name_split :
  (forall (body : value) (s : string),
      prop body "to_name" = JStr s ->
      s <> "" ->
      exists token rest,
        split_space s = token :: rest /\
        intent Smartlead body =
        Ok {| firstName := if String.eqb token "" then JNull else JStr token;
              lastName := if String.eqb (join rest) "" then JNull
                          else JStr (join rest);
              phone := JNull;
              company := JNull |}) /\
  intent Smartlead (JObj [("to_name", JStr "Jane Mary Doe")]) =
    Ok (mkContactInfo (JStr "Jane") (JStr "Mary Doe") JNull JNull) /\
  intent Smartlead (JObj [("to_name", JStr "Solo")]) =
    Ok (mkContactInfo (JStr "Solo") JNull JNull JNull).
Proof.
  split; [| split; reflexivity].
  intros body s Hname Hs. cbn [intent]. rewrite Hname.
  unfold nameParts. cbn [truthy split].
  apply String.eqb_neq in Hs. rewrite Hs. cbn [negb].
  destruct (split_space s) as [| token rest] eqn:E;
    [now apply split_space_nonempty in E |].
  exists token, rest. split; [reflexivity |].
  unfold smartlead_contactInfo, or_. cbn [first tl truthy].
  destruct (String.eqb token ""), (String.eqb (join rest) ""); reflexivity.
Qed.

(* ================================================================== *)
(** ** Creation, and the merge the CRM makes on update                 *)
(* ================================================================== *)

Lemma spread_and (fs : list (string * value)) (k : string) (x : value) :
  spread fs (and_ x (JObj [(k, x)])) = if truthy x then set k x fs else fs.
Proof.
  unfold and_. destruct (truthy x) eqn:E; [reflexivity |].
  destruct x; try reflexivity; discriminate.
Qed.

Lemma lookup_if_set (b : bool) (k k' : string) (v : value)
    (fs : list (string * value)) :
  lookup k (if b then set k' v fs else fs) =
  if String.eqb k k' && b then Some v else lookup k fs.
Proof.
  destruct b.
  - now rewrite lookup_set, andb_true_r.
  - now rewrite andb_false_r.
Qed.

(** What a creation sends for each contact field: the intent's value when
    it is truthy, nothing otherwise. *)
Lemma lookup_properties_on_create (email : value) (info : ContactInfo)
    (name : string) :
  In name contact_fields ->
  lookup name (properties_on_create email info) =
  if truthy (field_of info name) then Some (field_of info name) else None.
Proof.
  intros Hin. unfold properties_on_create. cbv zeta.
  rewrite !spread_and, !lookup_if_set.
  unfold contact_fields in Hin. simpl in Hin.
  destruct Hin as [<- | [<- | [<- | [<- | []]]]];
    unfold field_of; cbn [String.eqb Ascii.eqb Bool.eqb andb lookup];
    repeat match goal with
           | |- context [if ?b then _ else _] => destruct b
           end; reflexivity.
Qed.

Lemma lookup_properties_on_create_other (email : value) (info : ContactInfo)
    (k : string) :
  ~ In k contact_fields ->
  lookup k (properties_on_create email info) =
  lookup k [("email", email); ("source_system", JStr "SGCRM")].
Proof.
  intros Hk. unfold properties_on_create. cbv zeta.
  rewrite !spread_and, !lookup_if_set.
  unfold contact_fields in Hk. simpl in Hk.
  destruct (String.eqb k "company") eqn:E1;
    [apply String.eqb_eq in E1; subst k; tauto |].
  destruct (String.eqb k "phone") eqn:E2;
    [apply String.eqb_eq in E2; subst k; tauto |].
  destruct (String.eqb k "lastname") eqn:E3;
    [apply String.eqb_eq in E3; subst k; tauto |].
  destruct (String.eqb k "firstname") eqn:E4;
    [apply String.eqb_eq in E4; subst k; tauto |].
  reflexivity.
Qed.







(** What a patch holds for one of the four contact fields. *)
Lemma lookup_patch_field (e : endpoint) (body : value) (info : ContactInfo)
    (hc : HubSpotContact) (name : string) :
  In name contact_fields ->
  lookup name (propertiesToUpdate e body info hc) =
  if truthy (field_of info name) && negb (truthy (remote_value hc name))
  then Some (field_of info name) else None.
Proof.
  intros Hin.
  assert (Hother : String.eqb name "salesgodcrm_contact_id" = false
                   /\ forall l, lookup name [("source_system", JStr l)] = None).
  { unfold contact_fields in Hin. simpl in Hin.
    destruct Hin as [<- | [<- | [<- | [<- | []]]]]; split; reflexivity. }
  destruct Hother as [Hid Hbase].
  destruct e; cbn [propertiesToUpdate];
    unfold sgcrm_propertiesToUpdate, smartlead_propertiesToUpdate.
  - destruct (truthy (prop body "id"));
      rewrite ?(lookup_set_other _ _ _ _ Hid); now apply lookup_fill_gaps.
  - now apply lookup_fill_gaps.
Qed.




(* ================================================================== *)
(** ** Deliveries against the modelled CRM                             *)
(* ================================================================== *)

Section Deliveries.

Variable shape : value -> value.









End Deliveries.

(* ================================================================== *)
(** ** Created, updated, and what the patch then holds                 *)
(* ================================================================== *)



(** C4, amended: a delivery answered 200 either found the contact, and then
    the response's [action] is [updated] and the audit record's [action] is
    [updated_existing], or created it, and then they are [created] and
    [created_new]; the response carries the remote contact's id as
    [hubspotContactId], the action, and the audit record, which names the
    same contact. *)
Theorem success_result :
  forall (W : Type) (c : crm W) (e : endpoint) (secret : option string)
         (now : string) (req : Request) (w : W),
    let o := run c (handler e secret now req) w in
    status_of (outcome o) = Some 200%Z ->
    exists response contact,
      outcome o = Ok response /\
      prop (json response) "success" = JBool true /\
      prop (json response) "hubspotContactId" = prop contact "id" /\
      prop (prop (json response) "auditLog") "hubspot_contact_id" =
        prop contact "id" /\
      ((hits (trace o) = [contact] /\ creations (trace o) = [] /\
        action (outcome o) = JStr "updated" /\
        audit_action (outcome o) = JStr "updated_existing") \/
       (hits (trace o) = [] /\ creations (trace o) = [contact] /\
        action (outcome o) = JStr "created" /\
        audit_action (outcome o) = JStr "created_new")).
Proof.
  intros W c e secret now req w o Hstatus. subst o.
  pose proof (run_handler c e secret now req w) as H. cbv zeta in H.
  destruct H as [(_ & Hnot & _) | (info & pre & hc & a & _ & Hres & Htr & Hout)];
    [contradiction |].
  rewrite Hout in Hstatus. destruct a as [data | err]; [| discriminate].
  rewrite Hout, Htr, hits_app, creations_app. cbn [hits creations app].
  rewrite !app_nil_r. eexists.
  destruct Hres as [existing others _ | created _].
  - exists existing. split; [reflexivity |].
    repeat split; try (destruct e; reflexivity).
    left. repeat split; destruct e; reflexivity.
  - exists created. split; [reflexivity |].
    repeat split; try (destruct e; reflexivity).
    right. repeat split; destruct e; reflexivity.
Qed.

(* ================================================================== *)
(** ** The claims that fail as stated                                  *)
(* ================================================================== *)


(** C4 as stated fails: the audit record of a successful first delivery has
    action [created_new], which is neither [created] nor [updated]. *)
Lemma audit_action_is_not_created :
  status_of (outcome first_delivery) = Some 200%Z /\
  audit_action (outcome first_delivery) = JStr "created_new" /\
  ~ In (audit_action (outcome first_delivery)) [JStr "created"; JStr "updated"].
Proof.
  repeat split; try reflexivity.
  vm_compute. intros [H | [H | []]]; discriminate H.
Qed.

(** C5 as stated fails: no email candidate of this payload is a non-empty
    string, yet the handler searches the CRM for the number and answers
    500, not 400. *)
Lemma numeric_email_reaches_crm :
  Forall (fun v => filled v = false)
         (candidates SalesGodCRM (body numeric_email)) /\
  requests (trace (run (HubSpot.hubspot HubSpot.nested)
                       (webhook_salesgodscrm None "2024-01-01T00:00:01.000Z"
                          numeric_email)
                       HubSpot.empty)) = [Search (JNum "123")] /\
  status_of (outcome (run (HubSpot.hubspot HubSpot.nested)
                          (webhook_salesgodscrm None "2024-01-01T00:00:01.000Z"
                             numeric_email)
                          HubSpot.empty)) = Some 500%Z.
Proof.
  split; [repeat constructor | split; reflexivity].
Qed.

(** C8 as stated fails: the first space-separated token of a name that
    starts with a space is the empty string, and [firstName] is null, not
    that token. *)
Lemma leading_space_first_name :
  split_space " Jane" = [""; "Jane"] /\
  intent Smartlead (JObj [("to_name", JStr " Jane")]) =
    Ok (mkContactInfo JNull (JStr "Jane") JNull JNull) /\
  JNull <> JStr "".
Proof.
  split; [reflexivity | split; [reflexivity | discriminate]].
Qed.


(* ================================================================== *)
(** ** The theorems at concrete deliveries                             *)
(* ================================================================== *)

(** The test payload, first name [Test], arrives for a contact whose first
    name is already [Existing]: the patch fills the other three fields and
    leaves [firstname] out. *)
Lemma no_overwrite_witness :
  exists fs,
    JObj [("source_system", JStr "SGCRM"); ("lastname", JStr "Lead");
          ("phone", JStr "+1-555-0123"); ("company", JStr "Test Company")]
    = JObj fs /\
    ~ In "firstname" (keys fs).
Proof.
  apply (no_overwrite HubSpot.store (HubSpot.hubspot HubSpot.nested)
           SalesGodCRM None "2024-01-01T00:00:01.000Z"
           (mkRequest [] testPayload1) known_store
           (HubSpot.present_contact HubSpot.nested known_contact)
           "firstname").
  - vm_compute. left. reflexivity.
  - simpl. left. reflexivity.
  - reflexivity.
  - vm_compute. left. reflexivity.
Defined.

Lemma source_system_always_set_witness :
  exists fs,
    JObj [("source_system", JStr "Smartlead Email Campaign");
          ("firstname", JStr "Jane"); ("lastname", JStr "Mary Doe")]
    = JObj fs /\
    fs <> [] /\
    lookup "source_system" fs = Some (JStr "Smartlead Email Campaign").
Proof.
  apply (source_system_always_set HubSpot.store
           (HubSpot.hubspot HubSpot.flat) Smartlead None
           "2024-01-01T00:00:01.000Z" smartlead_event HubSpot.empty).
  vm_compute. left. reflexivity.
Defined.

Lemma smartlead_patch_keys_witness :
  exists fs,
    JObj [("source_system", JStr "Smartlead Email Campaign");
          ("firstname", JStr "Jane"); ("lastname", JStr "Mary Doe")]
    = JObj fs /\
    incl (keys fs) ["source_system"; "firstname"; "lastname"].
Proof.
  apply (proj2 (smartlead_patch_keys HubSpot.store
                  (HubSpot.hubspot HubSpot.flat) None
                  "2024-01-01T00:00:01.000Z" smartlead_event HubSpot.empty)).
  vm_compute. left. reflexivity.
Defined.

(** The spec's example: under the secret [s3cret] the request signed with
    the hex HMAC-SHA256 of its serialized body passes the gate. *)
Lemma signature_gate_witness :
  verifyWebhookSignature (Some "s3cret") signed_request = Ok true.
Proof.
  destruct (signature_gate "s3cret" signed_request)
    as (payload & Hpayload & Hgate & _).
  - discriminate.
  - reflexivity.
  - apply Hgate. vm_compute in Hpayload. injection Hpayload as <-.
    vm_compute. reflexivity.
Defined.

Lemma gate_open_without_secret_witness :
  verifyWebhookSignature None signed_request = Ok true /\
  forall (W : Type) (c : crm W) (e : endpoint) (now : string) (w : W),
    status_of (outcome (run c (handler e None now signed_request) w))
    <> Some 401%Z.
Proof.
  apply (gate_open_without_secret None signed_request). reflexivity.
Defined.

(** A payload whose email is the empty string is answered 400 with no CRM
    call. *)
Lemma missing_identity_witness :
  exists payload,
    run (HubSpot.hubspot HubSpot.nested)
        (handler SalesGodCRM None "2024-01-01T00:00:01.000Z" no_email)
        HubSpot.empty =
    ([], HubSpot.empty, Ok (mkResponse 400 (JObj payload))) /\
    lookup "error" payload = Some (JStr "Missing email in webhook payload").
Proof.
  apply (missing_identity HubSpot.store (HubSpot.hubspot HubSpot.nested)
           SalesGodCRM None "2024-01-01T00:00:01.000Z" no_email
           HubSpot.empty).
  - reflexivity.
  - reflexivity.
  - repeat constructor.
Defined.

Lemma full_name_split_witness :
  exists token rest,
    split_space " Jane" = token :: rest /\
    intent Smartlead (JObj [("to_name", JStr " Jane")]) =
    Ok {| firstName := if String.eqb token "" then JNull else JStr token;
          lastName := if String.eqb (join rest) "" then JNull
                      else JStr (join rest);
          phone := JNull;
          company := JNull |}.
Proof.
  apply (proj1 full_name_split (JObj [("to_name", JStr " Jane")]) " Jane").
  - reflexivity.
  - discriminate.
Defined.



Lemma success_result_witness :
  exists response contact,
    outcome first_delivery = Ok response /\
    prop (json response) "success" = JBool true /\
    prop (json response) "hubspotContactId" = prop contact "id" /\
    prop (prop (json response) "auditLog") "hubspot_contact_id" =
      prop contact "id" /\
    ((hits (trace first_delivery) = [contact] /\
      creations (trace first_delivery) = [] /\
      action (outcome first_delivery) = JStr "updated" /\
      audit_action (outcome first_delivery) = JStr "updated_existing") \/
     (hits (trace first_delivery) = [] /\
      creations (trace first_delivery) = [contact] /\
      action (outcome first_delivery) = JStr "created" /\
      audit_action (outcome first_delivery) = JStr "created_new")).
Proof.
  apply (success_result HubSpot.store (HubSpot.hubspot HubSpot.nested)
           SalesGodCRM None "2024-01-01T00:00:01.000Z"
           (mkRequest [] testPayload1) HubSpot.empty).
  reflexivity.
Defined.

(* ================================================================== *)
(** ** Every way a delivery can go                                     *)
(* ================================================================== *)

Section Cases.

Context {W : Type} (c : crm W).

Lemma run_attempt (email : value) (info : ContactInfo) (w : W) :
  attempt email info
    (trace (run c (getOrCreateHubSpotContact email info) w))
    (outcome (run c (getOrCreateHubSpotContact email info) w)).
Proof.
  unfold getOrCreateHubSpotContact. rewrite run_rethrow, run_bind, run_await.
  destruct (c (Search email) w) as [[results | err] w1]; simpl;
    [| apply attempt_search_rejected].
  destruct results as [| r0 rest]; simpl.
  - destruct (c (Create (JObj (properties_on_create email info))) w1)
      as [[data | err] w2]; simpl; [| apply attempt_create_rejected].
    unfold get. destruct (nullish data) eqn:Hn; simpl.
    + now apply attempt_null_created.
    + now apply attempt_resolved, resolved_new.
  - unfold get. destruct (nullish r0) eqn:Hn; simpl.
    + now apply attempt_null_result.
    + now apply attempt_resolved, resolved_existing.
Qed.

(** A run of a handler makes no call at all, or stops in the resolver and
    answers 500, or resolves the contact and sends its patch. *)
Lemma run_handler_cases (e : endpoint) (secret : option string)
    (now : string) (req : Request) (w : W) :
  let o := run c (handler e secret now req) w in
  (trace o = [] /\
   match outcome o with
   | Ok response => In (status response) [401; 400; 500]%Z
   | Thrown _ => e = Smartlead /\ nullish (body req) = true
   end) \/
  (exists info err,
      verifyWebhookSignature secret req = Ok true /\
      truthy (contactEmail e (body req)) = true /\
      intent e (body req) = Ok info /\
      attempt (contactEmail e (body req)) info (trace o) (Thrown err) /\
      outcome o = Ok (failure err)) \/
  (exists info pre hubspotContact a,
      verifyWebhookSignature secret req = Ok true /\
      truthy (contactEmail e (body req)) = true /\
      intent e (body req) = Ok info /\
      resolved (contactEmail e (body req)) info pre hubspotContact /\
      let patch := propertiesToUpdate e (body req) info hubspotContact in
      trace o =
        pre ++ [Exchange (Update (contactId hubspotContact) (JObj patch)) a]
      /\
      outcome o =
        match a with
        | Ok _ =>
            Ok (mkResponse 200
                  (JObj [("success", JBool true);
                         ("hubspotContactId", contactId hubspotContact);
                         ("action", action_of hubspotContact);
                         ("auditLog",
                          auditLog e now (body req) hubspotContact patch)]))
        | Thrown err => Ok (failure err)
        end).
Proof.
  assert (Hcore : forall info,
    intent e (body req) = Ok info ->
    verifyWebhookSignature secret req = Ok true ->
    truthy (contactEmail e (body req)) = true ->
    let o :=
      run c
        (try_catch
           (hubspotContact <-
              getOrCreateHubSpotContact (contactEmail e (body req)) info ;;
            let patch :=
              propertiesToUpdate e (body req) info hubspotContact in
            _ <- updateHubSpotContact (contactId hubspotContact)
                   (JObj patch) ;;
            success hubspotContact
              (auditLog e now (body req) hubspotContact patch))
           processing_failed) w in
    (exists err,
        attempt (contactEmail e (body req)) info (trace o) (Thrown err) /\
        outcome o = Ok (failure err)) \/
    (exists pre hubspotContact a,
        resolved (contactEmail e (body req)) info pre hubspotContact /\
        let patch := propertiesToUpdate e (body req) info hubspotContact in
        trace o =
          pre ++ [Exchange (Update (contactId hubspotContact) (JObj patch)) a]
        /\
        outcome o =
          match a with
          | Ok _ =>
              Ok (mkResponse 200
                    (JObj [("success", JBool true);
                           ("hubspotContactId", contactId hubspotContact);
                           ("action", action_of hubspotContact);
                           ("auditLog",
                            auditLog e now (body req) hubspotContact patch)]))
          | Thrown err => Ok (failure err)
          end)).
  { intros info Hinfo Hgate Hemail. cbv zeta.
    rewrite run_try_catch, run_bind.
    pose proof (run_attempt (contactEmail e (body req)) info w) as Hatt.
    destruct (run c (getOrCreateHubSpotContact _ _) w)
      as [[pre w1] [hc | err]]; cbn [trace outcome fst snd] in Hatt.
    - rewrite run_bind. unfold updateHubSpotContact.
      rewrite run_rethrow, (run_await c (Update _ _) w1).
      right. exists pre, hc. inversion Hatt as [? ? Hres | | | |]; subst.
      match goal with
      | |- context [c ?r w1] => destruct (c r w1) as [[data | err] w2]
      end; cbn.
      + exists (Ok data). rewrite ?app_nil_r. auto.
      + exists (Thrown err). rewrite ?app_nil_r. auto.
    - left. exists err. cbn. rewrite ?app_nil_r. auto. }
  destruct e; cbn [handler]; unfold webhook_salesgodscrm, webhook_smartlead;
    cbv zeta.
  - destruct (verifyWebhookSignature secret req) as [[|] | err] eqn:Hgate;
      cbn [lift bind try_catch negb run trace outcome fst snd processing_failed
             respond unauthorized status];
      [| left; split; [reflexivity | simpl; auto] ..].
    unfold get.
    destruct (nullish (body req)) eqn:Hbody;
      cbn [lift bind try_catch negb run trace outcome fst snd processing_failed
             respond status];
      [left; split; [reflexivity | simpl; auto] |].
    destruct (truthy (sgcrm_contactEmail (body req))) eqn:Hemail;
      cbn [lift bind try_catch negb run trace outcome fst snd processing_failed
             respond status];
      [| left; split; [reflexivity | simpl; auto]].
    right.
    destruct (Hcore (sgcrm_contactInfo (body req)) eq_refl eq_refl Hemail)
      as [(err & H) | (pre & hc & a & H)].
    + left. exists (sgcrm_contactInfo (body req)), err. auto.
    + right. exists (sgcrm_contactInfo (body req)), pre, hc, a. auto.
  - destruct (Object_keys (body req)) as [ks | err] eqn:Hkeys;
      cbn [lift bind run trace outcome fst snd];
      [| left; split; [reflexivity |]; split; [reflexivity |];
         destruct (body req); simpl in Hkeys; try discriminate; reflexivity].
    destruct (verifyWebhookSignature secret req) as [[|] | err] eqn:Hgate;
      cbn [lift bind try_catch negb run trace outcome fst snd processing_failed
             respond unauthorized status];
      [| left; split; [reflexivity | simpl; auto] ..].
    destruct (truthy (smartlead_contactEmail (body req))) eqn:Hemail;
      cbn [lift bind try_catch negb run trace outcome fst snd processing_failed
             respond status];
      [| left; split; [reflexivity | simpl; auto]].
    destruct (nameParts (prop (body req) "to_name")) as [parts | err] eqn:Hparts;
      cbn [lift bind try_catch negb run trace outcome fst snd processing_failed
             respond status];
      [| left; split; [reflexivity | simpl; auto]].
    right.
    assert (Hinfo : intent Smartlead (body req)
                    = Ok (smartlead_contactInfo parts)).
    { cbn [intent]. now rewrite Hparts. }
    destruct (Hcore (smartlead_contactInfo parts) Hinfo eq_refl Hemail)
      as [(err & H) | (pre & hc & a & H)].
    + left. exists (smartlead_contactInfo parts), err. auto.
    + right. exists (smartlead_contactInfo parts), pre, hc, a. auto.
Qed.

End Cases.

(* ================================================================== *)
(** ** Answers, failures and the order of the CRM calls                *)
(* ================================================================== *)

(** X1: the SalesGodCRM handler never throws: whatever the request and
    whatever the CRM does, it answers, with status 200, 400, 401 or 500. *)
Theorem salesgodscrm_always_answers :
  forall (W : Type) (c : crm W) (secret : option string) (now : string)
         (req : Request) (w : W),
    exists response,
      outcome (run c (webhook_salesgodscrm secret now req) w) = Ok response /\
      In (status response) [200; 400; 401; 500]%Z.
Proof.
  intros W c secret now req w.
  pose proof (run_handler_cases c SalesGodCRM secret now req w) as H.
  cbv zeta in H. cbn [handler] in H.
  destruct H as [[_ H] | [(info & err & _ & _ & _ & _ & ->)
                         | (info & pre & hc & a & _ & _ & _ & _ & _ & ->)]].
  - destruct (outcome _) as [response | err].
    + exists response. split; [reflexivity |]. simpl in *. intuition.
    + destruct H as [H _]. discriminate H.
  - eexists. split; [reflexivity |]. simpl. auto.
  - destruct a; eexists; (split; [reflexivity |]); simpl; auto.
Qed.

(** X2: the Smartlead handler reads [Object.keys(req.body)] before its
    [try]: on an [undefined] or [null] body it throws with no answer and no
    CRM call; on any other body it answers, with 200, 400, 401 or 500. *)
Theorem smartlead_answers_unless_no_body :
  forall (W : Type) (c : crm W) (secret : option string) (now : string)
         (req : Request) (w : W),
    if nullish (body req)
    then run c (webhook_smartlead secret now req) w =
         ([], w, Thrown "Cannot convert undefined or null to object")
    else exists response,
        outcome (run c (webhook_smartlead secret now req) w) = Ok response /\
        In (status response) [200; 400; 401; 500]%Z.
Proof.
  intros W c secret now req w.
  destruct (nullish (body req)) eqn:Hbody.
  - unfold webhook_smartlead.
    destruct (body req); try discriminate; reflexivity.
  - pose proof (run_handler_cases c Smartlead secret now req w) as H.
    cbv zeta in H. cbn [handler] in H.
    destruct H as [[_ H] | [(info & err & _ & _ & _ & _ & ->)
                           | (info & pre & hc & a & _ & _ & _ & _ & _ & ->)]].
    + destruct (outcome _) as [response | err].
      * exists response. split; [reflexivity |]. simpl in *. intuition.
      * destruct H as [_ H]. congruence.
    + eexists. split; [reflexivity |]. simpl. auto.
    + destruct a; eexists; (split; [reflexivity |]); simpl; auto.
Qed.

Lemma requests_app (tr1 tr2 : list exchange) :
  requests (tr1 ++ tr2) = requests tr1 ++ requests tr2.
Proof. apply map_app. Qed.

(** X3: a delivery makes at most three CRM calls, in a fixed order: first
    one search for the contact email, then at most one creation, then at
    most one update, which is always the last call. *)
Theorem call_discipline :
  forall (W : Type) (c : crm W) (e : endpoint) (secret : option string)
         (now : string) (req : Request) (w : W),
    let calls := requests (trace (run c (handler e secret now req) w)) in
    let email := contactEmail e (body req) in
    calls = [] \/
    calls = [Search email] \/
    (exists created, calls = [Search email; Create created]) \/
    (exists id patch, calls = [Search email; Update id patch]) \/
    (exists created id patch,
        calls = [Search email; Create created; Update id patch]).
Proof.
  intros W c e secret now req w calls email. subst calls email.
  pose proof (run_handler_cases c e secret now req w) as H. cbv zeta in H.
  destruct H as [[-> _] | [(info & err & _ & _ & _ & Hatt & _)
                          | (info & pre & hc & a & _ & _ & _ & Hres & -> & _)]].
  - now left.
  - inversion Hatt as [| ? Htr | ? ? ? Htr | ? Htr | ? ? Htr]; cbn;
      eauto 6.
  - rewrite requests_app. destruct Hres; cbn; eauto 8.
Qed.

(** X4: the update goes to the contact that was resolved, and a contact the
    search returned is never created again: an update follows either one
    search hit and no creation, with that contact's id, or an empty search
    and one fulfilled creation, with the created contact's id. *)
Theorem update_targets_resolved :
  forall (W : Type) (c : crm W) (e : endpoint) (secret : option string)
         (now : string) (req : Request) (w : W) (id patch : value),
    let tr := trace (run c (handler e secret now req) w) in
    In (Update id patch) (requests tr) ->
    (exists existing,
        hits tr = [existing] /\ creations tr = [] /\
        id = prop existing "id" /\
        forall created, ~ In (Create created) (requests tr)) \/
    (exists data,
        hits tr = [] /\ creations tr = [data] /\ id = prop data "id").
Proof.
  intros W c e secret now req w id patch tr Hin. subst tr.
  pose proof (run_handler_cases c e secret now req w) as H. cbv zeta in H.
  destruct H as [[Htr _] | [(info & err & _ & _ & _ & Hatt & _)
                           | (info & pre & hc & a & _ & _ & _ & Hres & Htr & _)]].
  - rewrite Htr in Hin. destruct Hin.
  - exfalso.
    inversion Hatt as [| ? Htr | ? ? ? Htr | ? Htr | ? ? Htr];
      rewrite <- Htr in Hin; cbn in Hin; intuition discriminate.
  - rewrite Htr in *. rewrite requests_app, hits_app, creations_app in *.
    destruct Hres as [existing others _ | data _]; cbn in *.
    + left. exists existing.
      destruct Hin as [Hin | [Hin | []]]; [discriminate |].
      injection Hin as <- _. repeat split.
      intros created [H | [H | []]]; discriminate.
    + right. exists data.
      destruct Hin as [Hin | [Hin | [Hin | []]]]; try discriminate.
      injection Hin as <- _. auto.
Qed.

Lemma resolved_no_rejection (email : value) (info : ContactInfo)
    (tr : list exchange) (hc : HubSpotContact) (x : exchange) :
  resolved email info tr hc -> In x tr -> rejection x = None.
Proof.
  intros [r0 rest _ | data _]; cbn; intuition (subst; reflexivity).
Qed.

(** X5: a rejected CRM call ends the delivery: it is the last call made,
    nothing is retried or rolled back, and the answer is 500 with the
    rejection's message. *)
Theorem rejection_ends_delivery :
  forall (W : Type) (c : crm W) (e : endpoint) (secret : option string)
         (now : string) (req : Request) (w : W)
         (before after : list exchange) (x : exchange) (err : error),
    let o := run c (handler e secret now req) w in
    trace o = before ++ x :: after ->
    rejection x = Some err ->
    after = [] /\ outcome o = Ok (failure err).
Proof.
  intros W c e secret now req w before after x err o Htr Hrej. subst o.
  pose proof (run_handler_cases c e secret now req w) as H. cbv zeta in H.
  destruct H as [[Hnil _] | [(info & err' & _ & _ & _ & Hatt & Hout)
                            | (info & pre & hc & a & _ & _ & _ & Hres & Hpre & Hout)]].
  - rewrite Hnil in Htr. now destruct before.
  - rewrite Hout. rewrite Htr in Hatt.
    inversion Hatt as [| ? Heq | ? ? ? Heq | ? Heq | ? ? Heq]; subst.
    + destruct before as [| b [| ? ?]]; try discriminate.
      injection Heq as <- <-. injection Hrej as <-. auto.
    + destruct before as [| b [| ? ?]]; try discriminate.
      injection Heq as <- <-. discriminate Hrej.
    + destruct before as [| b [| b' [| ? ?]]]; try discriminate.
      * injection Heq as <- <-. discriminate Hrej.
      * injection Heq as _ <- <-. injection Hrej as <-. auto.
    + destruct before as [| b [| b' [| ? ?]]]; try discriminate.
      * injection Heq as <- <-. discriminate Hrej.
      * injection Heq as _ <- <-. discriminate Hrej.
  - rewrite Hout. rewrite Hpre in Htr.
    assert (Hx : forall y, In y pre -> rejection y = None)
      by (intros y; apply (resolved_no_rejection _ _ _ _ _ Hres)).
    destruct Hres as [r0 rest _ | data _].
    + destruct before as [| b [| b' [| ? ?]]]; try discriminate.
      * injection Htr as <- _. discriminate Hrej.
      * injection Htr as _ <- <-. destruct a; [discriminate Hrej |].
        injection Hrej as <-. auto.
    + destruct before as [| b [| b' [| b'' [| ? ?]]]]; try discriminate.
      * injection Htr as <- _. discriminate Hrej.
      * injection Htr as _ <- _. discriminate Hrej.
      * injection Htr as _ _ <- <-. destruct a; [discriminate Hrej |].
        injection Hrej as <-. auto.
Qed.

(* ================================================================== *)
(** ** What is sent to the CRM and reported back                       *)
(* ================================================================== *)

(** The keys of a creation, in order: [email], [source_system], then the
    contact fields the intent has a truthy value for. *)
Lemma keys_properties_on_create (email : value) (info : ContactInfo) :
  keys (properties_on_create email info) =
  "email" :: "source_system"
  :: filter (fun name => truthy (field_of info name)) contact_fields.
Proof.
  unfold properties_on_create. cbv zeta. rewrite !spread_and.
  unfold contact_fields, field_of.
  cbn [filter String.eqb Ascii.eqb Bool.eqb].
  destruct (truthy (firstName info)), (truthy (lastName info)),
    (truthy (phone info)), (truthy (company info)); reflexivity.
Qed.

Lemma creation_in_attempt (email : value) (info : ContactInfo)
    (tr : list exchange) (out : result HubSpotContact) (created : value) :
  attempt email info tr out ->
  In (Create created) (requests tr) ->
  created = JObj (properties_on_create email info).
Proof.
  intros [? ? [r0 rest _ | data _] | err | r0 rest _ | err | data _];
    cbn; intros Hin;
    repeat (destruct Hin as [Hin | Hin];
            [try discriminate Hin; injection Hin as <-; reflexivity |]);
    destruct Hin.
Qed.

(** X6: every creation either handler sends, against any CRM, has the keys
    [email], [source_system] and then the contact fields of the intent that
    are truthy, in that order; [email] is the contact email, each field has
    the intent's value, and [source_system] is [SGCRM] on both endpoints,
    the Smartlead one included. *)
Theorem creation_properties :
  forall (W : Type) (c : crm W) (e : endpoint) (secret : option string)
         (now : string) (req : Request) (w : W) (created : value),
    In (Create created)
       (requests (trace (run c (handler e secret now req) w))) ->
    exists info fs,
      intent e (body req) = Ok info /\
      created = JObj fs /\
      keys fs =
        "email" :: "source_system"
        :: filter (fun name => truthy (field_of info name))
             ["firstname"; "lastname"; "phone"; "company"] /\
      lookup "email" fs = Some (contactEmail e (body req)) /\
      lookup "source_system" fs = Some (JStr "SGCRM") /\
      forall name,
        In name ["firstname"; "lastname"; "phone"; "company"] ->
        truthy (field_of info name) = true ->
        lookup name fs = Some (field_of info name).
Proof.
  intros W c e secret now req w created Hin.
  pose proof (run_handler_cases c e secret now req w) as H. cbv zeta in H.
  assert (Hcreated : exists info,
             intent e (body req) = Ok info /\
             created = JObj (properties_on_create
                               (contactEmail e (body req)) info)).
  { destruct H as [[Htr _] | [(info & err & _ & _ & Hinfo & Hatt & _)
                             | (info & pre & hc & a & _ & _ & Hinfo & Hres
                                & Htr & _)]].
    - rewrite Htr in Hin. destruct Hin.
    - exists info. split; [exact Hinfo |].
      now apply (creation_in_attempt _ _ _ _ _ Hatt).
    - exists info. split; [exact Hinfo |].
      rewrite Htr, requests_app in Hin. apply in_app_or in Hin.
      destruct Hin as [Hin | [Hin | []]]; [| discriminate Hin].
      apply (creation_in_attempt _ _ pre (Ok hc)); [| exact Hin].
      now apply attempt_resolved. }
  destruct Hcreated as (info & Hinfo & ->).
  exists info, (properties_on_create (contactEmail e (body req)) info).
  split; [exact Hinfo |]. split; [reflexivity |].
  split; [apply keys_properties_on_create |].
  split; [now rewrite lookup_properties_on_create_other
            by (unfold contact_fields; simpl; intuition discriminate) |].
  split; [now rewrite lookup_properties_on_create_other
            by (unfold contact_fields; simpl; intuition discriminate) |].
  intros name Hname Htruthy.
  now rewrite lookup_properties_on_create, Htruthy.
Qed.

(** X7: the SalesGodCRM patch carries [salesgodcrm_contact_id] exactly when
    the payload has a truthy top-level [id], with that value as it came; an
    [id] under [data] or [contact] is not looked at. *)
Theorem foreign_id_in_patch :
  forall (W : Type) (c : crm W) (secret : option string) (now : string)
         (req : Request) (w : W) (patch : value),
    In patch (patches (trace (run c (webhook_salesgodscrm secret now req) w)))
    ->
    exists fs,
      patch = JObj fs /\
      lookup "salesgodcrm_contact_id" fs =
      if truthy (prop (body req) "id") then Some (prop (body req) "id")
      else None.
Proof.
  intros W c secret now req w patch Hin.
  destruct (patches_handler c SalesGodCRM secret now req w patch Hin)
    as (info & pre & hc & _ & _ & _ & ->).
  eexists. split; [reflexivity |].
  cbn [propertiesToUpdate]. unfold sgcrm_propertiesToUpdate.
  destruct (truthy (prop (body req) "id")).
  - apply lookup_set_same.
  - rewrite lookup_fill_gaps_other; [reflexivity |].
    unfold contact_fields; simpl; intuition discriminate.
Qed.

(** X8: in a 200 answer the audit record's [properties_updated] lists the
    keys of the one patch that was sent, in the order they were set, and
    its [email] is the contact email that was searched. *)
Theorem audit_lists_patch_keys :
  forall (W : Type) (c : crm W) (e : endpoint) (secret : option string)
         (now : string) (req : Request) (w : W),
    let o := run c (handler e secret now req) w in
    status_of (outcome o) = Some 200%Z ->
    exists response fs,
      outcome o = Ok response /\
      patches (trace o) = [JObj fs] /\
      prop (prop (json response) "auditLog") "properties_updated" =
        JArr (map JStr (keys fs)) /\
      prop (prop (json response) "auditLog") "email" =
        contactEmail e (body req).
Proof.
  intros W c e secret now req w o Hstatus. subst o.
  pose proof (run_handler c e secret now req w) as H. cbv zeta in H.
  destruct H as [(_ & Hnot & _) | (info & pre & hc & a & _ & Hres & Htr & Hout)];
    [contradiction |].
  rewrite Hout in Hstatus. destruct a as [data | err]; [| discriminate].
  rewrite Hout, Htr, patches_app, (resolved_patches _ _ _ _ Hres).
  do 2 eexists. split; [reflexivity |]. split; [reflexivity |].
  split; destruct e; reflexivity.
Qed.

Lemma contactEmail_first_truthy (e : endpoint) (body : value) :
  contactEmail e body = first_truthy (candidates e body).
Proof.
  destruct e; cbn [contactEmail candidates first_truthy];
    unfold sgcrm_contactEmail, smartlead_contactEmail, or_.
  - destruct (truthy (prop body "email")) eqn:E1; [now rewrite E1 |].
    destruct (truthy (get_opt (prop body "contact") "email")) eqn:E2;
      now rewrite ?E2.
  - reflexivity.
Qed.

(** X9: the contact email is the first truthy candidate of the endpoint's
    chain, and the CRM is never searched for anything else: every search of
    a run is for that value, which is truthy. *)
Theorem searched_email :
  forall (W : Type) (c : crm W) (e : endpoint) (secret : option string)
         (now : string) (req : Request) (w : W) (email : value),
    In (Search email) (requests (trace (run c (handler e secret now req) w)))
    ->
    email = first_truthy (candidates e (body req)) /\ truthy email = true.
Proof.
  intros W c e secret now req w email Hin.
  rewrite <- contactEmail_first_truthy.
  pose proof (run_handler_cases c e secret now req w) as H. cbv zeta in H.
  destruct H as [[Htr _] | [(info & err & _ & Hemail & _ & Hatt & _)
                           | (info & pre & hc & a & _ & Hemail & _ & Hres
                              & Htr & _)]].
  - rewrite Htr in Hin. destruct Hin.
  - assert (email = contactEmail e (body req)) as ->; [| auto].
    inversion Hatt as [| ? Htr | ? ? ? Htr | ? Htr | ? ? Htr];
      rewrite <- Htr in Hin; cbn in Hin;
      repeat (destruct Hin as [Hin | Hin];
              [try discriminate Hin; injection Hin as <-; reflexivity |]);
      destruct Hin.
  - assert (email = contactEmail e (body req)) as ->; [| auto].
    rewrite Htr, requests_app in Hin.
    destruct Hres as [r0 rest _ | data _]; cbn in Hin;
      repeat (destruct Hin as [Hin | Hin];
              [try discriminate Hin; injection Hin as <-; reflexivity |]);
      destruct Hin.
Qed.

(** X10: the reconciler takes a remote property for empty unless it is an
    object with a truthy [value]: when the contact the search returned
    presents a field as a bare string (or not at all), the patch sets that
    field to the intent's value whenever the intent has one. *)
Theorem bare_property_is_overwritten :
  forall (W : Type) (c : crm W) (e : endpoint) (secret : option string)
         (now : string) (req : Request) (w : W)
         (existing : value) (name : string) (info : ContactInfo)
         (patch : value),
    In existing (hits (trace (run c (handler e secret now req) w))) ->
    In name ["firstname"; "lastname"; "phone"; "company"] ->
    (forall fs, prop (prop existing "properties") name <> JObj fs) ->
    intent e (body req) = Ok info ->
    In patch (patches (trace (run c (handler e secret now req) w))) ->
    exists fs,
      patch = JObj fs /\
      lookup name fs =
      if truthy (field_of info name) then Some (field_of info name) else None.
Proof.
  intros W c e secret now req w existing name info patch Hhit Hname Hbare
         Hinfo Hpatch.
  destruct (patches_handler c e secret now req w patch Hpatch)
    as (info' & pre & hc & Hinfo' & Hres & Hhits & ->).
  rewrite Hinfo in Hinfo'. injection Hinfo' as <-.
  rewrite Hhits in Hhit.
  destruct (resolved_hits _ _ _ _ _ Hres Hhit) as [_ Hprops].
  eexists. split; [reflexivity |].
  rewrite lookup_patch_field by exact Hname.
  assert (Hremote : truthy (remote_value hc name) = false).
  { unfold remote_value. rewrite Hprops. unfold get_opt at 2.
    destruct (nullish (prop existing "properties")); [reflexivity |].
    specialize (Hbare).
    destruct (prop (prop existing "properties") name) as [| | b | r | s | l | fs];
      try reflexivity.
    now contradiction (Hbare fs). }
  rewrite Hremote. now rewrite andb_true_r.
Qed.

(* ================================================================== *)
(** ** The full name, the health check and the test client             *)
(* ================================================================== *)

Lemma join_cons (token : string) (rest : list string) :
  join (token :: rest) =
  match rest with
  | [] => token
  | _ :: _ => (token ++ " " ++ join rest)%string
  end.
Proof. destruct rest; reflexivity. Qed.

(** Splitting at the spaces and joining with spaces gives the string back. *)
Lemma join_split_space (s : string) : join (split_space s) = s.
Proof.
  induction s as [| ch s IH]; [reflexivity |].
  cbn [split_space]. destruct (Ascii.eqb ch " ") eqn:E.
  - apply Ascii.eqb_eq in E. subst ch. rewrite join_cons.
    destruct (split_space s) as [| t ts] eqn:Es;
      [now apply split_space_nonempty in Es |].
    now rewrite IH.
  - destruct (split_space s) as [| t ts] eqn:Es;
      [now apply split_space_nonempty in Es |].
    rewrite join_cons in *. destruct ts; simpl; now rewrite <- IH.
Qed.

Lemma split_space_token (s token : string) (rest : list string) :
  split_space s = token :: rest ->
  ~ In " "%char (list_ascii_of_string token).
Proof.
  revert token rest. induction s as [| ch s IH]; intros token rest.
  - intros [= <- <-]. intros [].
  - cbn [split_space]. destruct (Ascii.eqb ch " ") eqn:E.
    + intros [= <- <-]. intros [].
    + destruct (split_space s) as [| t ts] eqn:Es;
        [now apply split_space_nonempty in Es |].
      intros [= <- <-]. cbn. intros [Hch | Hin].
      * subst ch. discriminate E.
      * now apply (IH t ts).
Qed.

Lemma join_empty (rest : list string) :
  join rest = "" -> rest = [] \/ rest = [""].
Proof.
  destruct rest as [| a [| b r]]; [auto | |].
  - cbn. intros ->. auto.
  - rewrite join_cons. destruct a; discriminate.
Qed.

(** X11: the Smartlead split loses nothing of a name: [firstName] never
    contains a space, and [lastName] is the whole text after the first
    space as it stands, so that a first and a last name joined by one space
    give [to_name] back; with no last name, [to_name] is the first name,
    possibly followed by one space; with no first name, it starts with a
    space. *)
Theorem name_parts_recompose :
  forall (body : value) (s : string) (info : ContactInfo),
    prop body "to_name" = JStr s ->
    s <> "" ->
    intent Smartlead body = Ok info ->
    (forall f, firstName info = JStr f ->
               ~ In " "%char (list_ascii_of_string f)) /\
    (forall f l, firstName info = JStr f -> lastName info = JStr l ->
                 s = (f ++ " " ++ l)%string) /\
    (forall f, firstName info = JStr f -> lastName info = JNull ->
               s = f \/ s = (f ++ " ")%string) /\
    (firstName info = JNull -> exists t, s = (" " ++ t)%string).
Proof.
  intros body s info Hname Hs Hinfo.
  cbn [intent] in Hinfo. rewrite Hname in Hinfo. unfold nameParts in Hinfo.
  cbn [truthy split] in Hinfo.
  apply String.eqb_neq in Hs. rewrite Hs in Hinfo. cbn [negb] in Hinfo.
  pose proof (join_split_space s) as Hjoin.
  destruct (split_space s) as [| token rest] eqn:E;
    [now apply split_space_nonempty in E |].
  pose proof (split_space_token s token rest E) as Htoken.
  injection Hinfo as <-.
  unfold smartlead_contactInfo, or_. cbn [firstName lastName first tl truthy].
  rewrite join_cons in Hjoin.
  destruct (String.eqb token "") eqn:Et; cbn [negb];
    destruct (String.eqb (join rest) "") eqn:Er; cbn [negb].
  - apply String.eqb_eq in Et, Er. subst token.
    repeat split; try discriminate.
    intros _. destruct rest; [now subst s |]. exists (join (s0 :: rest)).
    now rewrite <- Hjoin.
  - apply String.eqb_eq in Et. subst token.
    repeat split; try discriminate.
    intros _. destruct rest; [discriminate Er |]. exists (join (s0 :: rest)).
    now rewrite <- Hjoin.
  - apply String.eqb_eq in Er. repeat split; try discriminate.
    + now intros f [= <-].
    + intros f [= <-] _. destruct (join_empty rest Er) as [-> | ->].
      * now left.
      * right. now rewrite <- Hjoin.
  - repeat split; try discriminate.
    + now intros f [= <-].
    + intros f l [= <-] [= <-].
      destruct rest; [discriminate Er | now rewrite <- Hjoin].
Qed.


(** X13: a server that got past start-up has its key, so [GET /health]
    answers 200 with [hubspotConnected] true, never false. *)
Theorem health_always_connected :
  forall (HUBSPOT_API_KEY : option string) (now : string),
    startup HUBSPOT_API_KEY = Serving ->
    status (health HUBSPOT_API_KEY now) = 200%Z /\
    prop (json (health HUBSPOT_API_KEY now)) "status" = JStr "ok" /\
    prop (json (health HUBSPOT_API_KEY now)) "hubspotConnected" = JBool true.
Proof.
  intros key now Hboot. unfold startup in Hboot.
  destruct (present key) eqn:Hkey; [| discriminate].
  unfold health. cbn. now rewrite Hkey.
Qed.

Lemma sendWebhook_signature (url : ParsedUrl) (secret : string)
    (payload : value) (out : Outgoing) :
  sendWebhook url secret payload = Ok out ->
  JSON_stringify payload = Some (out_body out) /\
  header "x-webhook-signature" (out_headers out) =
  if String.eqb secret "" then None
  else Some (createHmac_sha256_hex secret (out_body out)).
Proof.
  unfold sendWebhook. destruct (JSON_stringify payload) as [str |];
    [| discriminate].
  intros [= <-]. cbn [out_body out_headers present]. split; [reflexivity |].
  destruct (String.eqb secret ""); reflexivity.
Qed.

(** X14: the test client and the gate agree: a request [sendWebhook] signs
    with a secret passes [verifyWebhookSignature] under the same secret,
    provided the server sees the signature header as sent and its parsed
    body serializes back to the string that was signed. *)
Theorem test_client_passes_gate :
  forall (url : ParsedUrl) (secret : string) (payload : value)
         (out : Outgoing) (req : Request),
    secret <> "" ->
    sendWebhook url secret payload = Ok out ->
    header "x-webhook-signature" (headers req) =
      header "x-webhook-signature" (out_headers out) ->
    JSON_stringify (body req) = Some (out_body out) ->
    verifyWebhookSignature (Some secret) req = Ok true.
Proof.
  intros url secret payload out req Hsecret Hsend Hheader Hbody.
  destruct (sendWebhook_signature _ _ _ _ Hsend) as [_ Hsig].
  rewrite (verify_configured secret req (out_body out) Hsecret Hbody).
  rewrite Hheader, Hsig.
  apply String.eqb_neq in Hsecret. rewrite Hsecret.
  now rewrite String.eqb_refl.
Qed.

(** X15: run without [--secret], the test client sends no signature
    header, and a server that has a secret configured turns the request
    down with 401 on either endpoint, with no CRM call. *)
Theorem unsigned_test_client_rejected :
  forall (url : ParsedUrl) (server_secret : string) (payload : value)
         (out : Outgoing) (req : Request),
    server_secret <> "" ->
    sendWebhook url "" payload = Ok out ->
    header "x-webhook-signature" (headers req) =
      header "x-webhook-signature" (out_headers out) ->
    nullish (body req) = false ->
    verifyWebhookSignature (Some server_secret) req = Ok false /\
    forall (W : Type) (c : crm W) (e : endpoint) (now : string) (w : W),
      run c (handler e (Some server_secret) now req) w =
      ([], w,
       Ok (mkResponse 401
             (JObj [("error", JStr "Unauthorized: Invalid signature")]))).
Proof.
  intros url server_secret payload out req Hsecret Hsend Hheader Hbody.
  destruct (sendWebhook_signature _ _ _ _ Hsend) as [_ Hsig].
  cbn in Hsig. rewrite Hsig in Hheader.
  assert (Hgate : verifyWebhookSignature (Some server_secret) req = Ok false).
  { destruct (stringify_defined _ Hbody) as [payload' Hpayload].
    rewrite (verify_configured server_secret req payload' Hsecret Hpayload).
    now rewrite Hheader. }
  split; [exact Hgate |].
  intros W c e now w. now apply run_unauthorized.
Qed.

Lemma length_hex (bs : list Z) :
  String.length (Hex.encode bs) = (2 * List.length bs)%nat.
Proof.
  induction bs as [| b bs IH]; [reflexivity |].
  cbn [Hex.encode fold_right Hex.byte String.length List.length].
  fold (Hex.encode bs). rewrite IH. lia.
Qed.

Lemma length_createHmac_sha256_hex (key payload : string) :
  String.length (createHmac_sha256_hex key payload) = 64%nat.
Proof.
  unfold createHmac_sha256_hex, SHA256.hmac. cbv zeta.
  rewrite length_hex. unfold SHA256.digest at 1. cbv zeta.
  match goal with
  | |- context [SHA256.digest_state ?m] => generalize (SHA256.digest_state m)
  end.
  intros st. reflexivity.
Qed.

(** X16: with a secret configured, a signature header that is not exactly
    64 characters long (a digest with a [sha256=] prefix, a base64 digest,
    a truncated one) is always turned down. *)
Theorem wrong_length_signature_rejected :
  forall (secret : string) (req : Request) (signature : string),
    secret <> "" ->
    nullish (body req) = false ->
    header "x-webhook-signature" (headers req) = Some signature ->
    String.length signature <> 64%nat ->
    verifyWebhookSignature (Some secret) req = Ok false.
Proof.
  intros secret req signature Hsecret Hbody Hheader Hlen.
  destruct (stringify_defined _ Hbody) as [payload Hpayload].
  rewrite (verify_configured secret req payload Hsecret Hpayload), Hheader.
  f_equal. apply String.eqb_neq. intros Heq. apply Hlen.
  rewrite <- Heq. apply length_createHmac_sha256_hex.
Qed.

(* ================================================================== *)
(** ** What a delivery leaves in the modelled CRM                      *)
(* ================================================================== *)



(* ================================================================== *)
(** ** The further properties at concrete deliveries                   *)
(* ================================================================== *)

Lemma update_targets_resolved_witness :
  (exists existing,
      hits (trace first_delivery) = [existing] /\
      creations (trace first_delivery) = [] /\
      JStr "1" = prop existing "id" /\
      forall created, ~ In (Create created) (requests (trace first_delivery)))
  \/
  (exists data,
      hits (trace first_delivery) = [] /\
      creations (trace first_delivery) = [data] /\
      JStr "1" = prop data "id").
Proof.
  apply (update_targets_resolved HubSpot.store
           (HubSpot.hubspot HubSpot.nested) SalesGodCRM None
           "2024-01-01T00:00:01.000Z" (mkRequest [] testPayload1)
           HubSpot.empty (JStr "1") (JObj [("source_system", JStr "SGCRM")])).
  vm_compute. right. right. left. reflexivity.
Defined.

(** The search for a numeric email is rejected by the modelled CRM: the
    delivery ends there with 500 and the CRM's message. *)
Lemma rejection_ends_delivery_witness :
  @nil exchange = [] /\
  outcome (run (HubSpot.hubspot HubSpot.nested)
               (handler SalesGodCRM None "2024-01-01T00:00:01.000Z"
                  numeric_email)
               HubSpot.empty) =
  Ok (failure "Request failed with status code 400").
Proof.
  apply (rejection_ends_delivery HubSpot.store
           (HubSpot.hubspot HubSpot.nested) SalesGodCRM None
           "2024-01-01T00:00:01.000Z" numeric_email HubSpot.empty
           [] [] (Exchange (Search (JNum "123"))
                    (Thrown "Request failed with status code 400"))
           "Request failed with status code 400").
  - reflexivity.
  - reflexivity.
Defined.

(** A contact created through the Smartlead endpoint is created as
    [SGCRM]. *)
Lemma creation_properties_witness :
  exists info fs,
    intent Smartlead (body smartlead_event) = Ok info /\
    JObj [("email", JStr "jane@example.com"); ("source_system", JStr "SGCRM");
          ("firstname", JStr "Jane"); ("lastname", JStr "Mary Doe")]
    = JObj fs /\
    keys fs =
      "email" :: "source_system"
      :: filter (fun name => truthy (field_of info name))
           ["firstname"; "lastname"; "phone"; "company"] /\
    lookup "email" fs = Some (contactEmail Smartlead (body smartlead_event)) /\
    lookup "source_system" fs = Some (JStr "SGCRM") /\
    forall name,
      In name ["firstname"; "lastname"; "phone"; "company"] ->
      truthy (field_of info name) = true ->
      lookup name fs = Some (field_of info name).
Proof.
  apply (creation_properties HubSpot.store (HubSpot.hubspot HubSpot.nested)
           Smartlead None "2024-01-01T00:00:01.000Z" smartlead_event
           HubSpot.empty).
  vm_compute. right. left. reflexivity.
Defined.

Lemma foreign_id_in_patch_witness :
  exists fs,
    JObj [("source_system", JStr "SGCRM");
          ("salesgodcrm_contact_id", JStr "sgcrm_42")] = JObj fs /\
    lookup "salesgodcrm_contact_id" fs =
    if truthy (prop (body with_foreign_id) "id")
    then Some (prop (body with_foreign_id) "id") else None.
Proof.
  apply (foreign_id_in_patch HubSpot.store (HubSpot.hubspot HubSpot.nested)
           None "2024-01-01T00:00:01.000Z" with_foreign_id HubSpot.empty).
  vm_compute. left. reflexivity.
Defined.

Lemma audit_lists_patch_keys_witness :
  exists response fs,
    outcome first_delivery_flat = Ok response /\
    patches (trace first_delivery_flat) = [JObj fs] /\
    prop (prop (json response) "auditLog") "properties_updated" =
      JArr (map JStr (keys fs)) /\
    prop (prop (json response) "auditLog") "email" =
      contactEmail SalesGodCRM testPayload1.
Proof.
  apply (audit_lists_patch_keys HubSpot.store (HubSpot.hubspot HubSpot.flat)
           SalesGodCRM None "2024-01-01T00:00:01.000Z"
           (mkRequest [] testPayload1) HubSpot.empty).
  reflexivity.
Defined.

(** The test payload has its email under [data] only: that is the third
    candidate, and the one searched. *)
Lemma searched_email_witness :
  JStr "test.lead@example.com" =
    first_truthy (candidates SalesGodCRM testPayload1) /\
  truthy (JStr "test.lead@example.com") = true.
Proof.
  apply (searched_email HubSpot.store (HubSpot.hubspot HubSpot.nested)
           SalesGodCRM None "2024-01-01T00:00:01.000Z"
           (mkRequest [] testPayload1) HubSpot.empty).
  vm_compute. left. reflexivity.
Defined.

(** On a CRM that presents bare values, the stored first name [Existing] is
    overwritten by the payload's [Test]. *)
Lemma bare_property_is_overwritten_witness :
  exists fs,
    JObj [("source_system", JStr "SGCRM"); ("firstname", JStr "Test");
          ("lastname", JStr "Lead"); ("phone", JStr "+1-555-0123");
          ("company", JStr "Test Company")] = JObj fs /\
    lookup "firstname" fs =
    if truthy (field_of (sgcrm_contactInfo testPayload1) "firstname")
    then Some (field_of (sgcrm_contactInfo testPayload1) "firstname")
    else None.
Proof.
  apply (bare_property_is_overwritten HubSpot.store
           (HubSpot.hubspot HubSpot.flat) SalesGodCRM None
           "2024-01-01T00:00:01.000Z" (mkRequest [] testPayload1) known_store
           (HubSpot.present_contact HubSpot.flat known_contact) "firstname"
           (sgcrm_contactInfo testPayload1)).
  - vm_compute. left. reflexivity.
  - simpl. left. reflexivity.
  - intros fs. discriminate.
  - reflexivity.
  - vm_compute. left. reflexivity.
Defined.

Lemma name_parts_recompose_witness :
  (forall f, JStr "Jane" = JStr f ->
             ~ In " "%char (list_ascii_of_string f)) /\
  (forall f l, JStr "Jane" = JStr f -> JStr "Mary Doe" = JStr l ->
               "Jane Mary Doe" = (f ++ " " ++ l)%string) /\
  (forall f, JStr "Jane" = JStr f -> JStr "Mary Doe" = JNull ->
             "Jane Mary Doe" = f \/ "Jane Mary Doe" = (f ++ " ")%string) /\
  (JStr "Jane" = JNull -> exists t, "Jane Mary Doe" = (" " ++ t)%string).
Proof.
  apply (name_parts_recompose (body smartlead_event) "Jane Mary Doe"
           (mkContactInfo (JStr "Jane") (JStr "Mary Doe") JNull JNull)).
  - reflexivity.
  - discriminate.
  - reflexivity.
Defined.


Lemma health_always_connected_witness :
  status (health (Some "pat-na1-0000") "2024-01-01T00:00:00.000Z") = 200%Z /\
  prop (json (health (Some "pat-na1-0000") "2024-01-01T00:00:00.000Z"))
       "status" = JStr "ok" /\
  prop (json (health (Some "pat-na1-0000") "2024-01-01T00:00:00.000Z"))
       "hubspotConnected" = JBool true.
Proof.
  apply (health_always_connected (Some "pat-na1-0000")
           "2024-01-01T00:00:00.000Z").
  reflexivity.
Defined.

(** The request the test client signs with [s3cret] is the signed request
    of the spec's example, and passes the gate. *)
Lemma test_client_passes_gate_witness :
  verifyWebhookSignature (Some "s3cret") signed_request = Ok true.
Proof.
  eapply (test_client_passes_gate default_url "s3cret"
            (JObj [("email", JStr "a@b.com")]) _ signed_request).
  - discriminate.
  - vm_compute. reflexivity.
  - vm_compute. reflexivity.
  - vm_compute. reflexivity.
Defined.

Lemma unsigned_test_client_rejected_witness :
  verifyWebhookSignature (Some "s3cret") (mkRequest [] testPayload1)
    = Ok false /\
  forall (W : Type) (c : crm W) (e : endpoint) (now : string) (w : W),
    run c (handler e (Some "s3cret") now (mkRequest [] testPayload1)) w =
    ([], w,
     Ok (mkResponse 401
           (JObj [("error", JStr "Unauthorized: Invalid signature")]))).
Proof.
  eapply (unsigned_test_client_rejected default_url "s3cret" testPayload1 _
            (mkRequest [] testPayload1)).
  - discriminate.
  - vm_compute. reflexivity.
  - vm_compute. reflexivity.
  - reflexivity.
Defined.

Lemma wrong_length_signature_rejected_witness :
  verifyWebhookSignature (Some "s3cret") prefixed_signature = Ok false.
Proof.
  apply (wrong_length_signature_rejected "s3cret" prefixed_signature
           "sha256=f1ff66e5f412e0f1539594eff2ac553df37e5a2dae39a729b94717ce97eba2d4").
  - discriminate.
  - reflexivity.
  - reflexivity.
  - vm_compute. discriminate.
Defined.


